(** * FrontendMonitor (src/index.ts): a shallow embedding and its properties

    The monitor is a single class whose handlers run to completion on the
    page's event loop.  The embedding is a state machine: the state is the
    monitor's private fields together with the listeners it has registered
    on the host; one step handles one host event.  Every handler is written
    in a small state monad that also keeps a log of what the handler did
    (each call of [getBasicTiming], each transmission of [report]).

    Numbers.  The marks of [performance.timing] are integers (milliseconds)
    and are modelled by [Z].  High-resolution times, which the monitor only
    tests against 0 and rounds, are modelled by canonical rationals [Qc].
    Layout-shift scores and the accumulator are binary64 numbers, the
    primitive [float], so that [+=] rounds as it does on the host; what is
    proved about their order rests on the specification of binary64
    addition and comparison ([SpecFloat], [FloatAxioms]).

    [report] hands the envelope to the transport as it is; the text that
    [JSON.stringify] makes of it is not modelled. *)

From Stdlib Require Import ZArith List String Bool Lia.
From Stdlib Require Import QArith Qcanon Qround.
From Stdlib Require Import PrimFloat SpecFloat FloatOps FloatAxioms.
From Stdlib Require Import Lqa.
Import ListNotations.

Local Open Scope Z_scope.

(** ** Values of the host language *)

Module JS.

(** A string-valued property that may be [undefined]. *)
Definition str := option string.

(** [a || d] where [d] is a string: [undefined] and [''] are falsy. *)
Definition str_or_default (a : str) (d : string) : string :=
  match a with
  | Some s => if String.eqb s EmptyString then d else s
  | None => d
  end.

(** [a || b] where both sides may be [undefined]. *)
Definition str_or (a b : str) : str :=
  match a with
  | Some s => if String.eqb s EmptyString then b else a
  | None => b
  end.

(** Interpolation inside a template literal. *)
Definition interpolate (a : str) : string :=
  match a with
  | Some s => s
  | None => "undefined"%string
  end.

(** [n || d] on integers that may be [undefined]: [0] is falsy. *)
Definition int_or_default (n : option Z) (d : Z) : Z :=
  match n with
  | Some k => if Z.eqb k 0 then d else k
  | None => d
  end.

(** [a || b] on numbers: [0] is falsy. *)
Definition num_or (a b : Qc) : Qc :=
  if Qc_eq_dec a (Q2Qc 0) then b else a.

(** [Math.round]: the nearest integer, ties towards plus infinity. *)
Definition round (x : Qc) : Z := Qfloor (Qplus (this x) (1 # 2)).

End JS.

(** ** Data model (index.ts, lines 1-45) *)

(** The marks of [PerformanceTiming] that the monitor reads. *)
Record PerformanceTiming := {
  navigationStart : Z;
  domainLookupStart : Z;
  domainLookupEnd : Z;
  connectStart : Z;
  connectEnd : Z;
  requestStart : Z;
  responseStart : Z;
  domInteractive : Z;
  domContentLoadedEventEnd : Z;
  domComplete : Z;
  loadEventStart : Z;
  loadEventEnd : Z
}.

(** The object literal returned by [getBasicTiming]. *)
Record BasicTiming := {
  dns : Z;
  tcp : Z;
  ttfb : Z;
  domParse : Z;
  resources : Z;
  domReady : Z;
  interactive : Z;
  load : Z
}.

(** [PerformanceReport['data']]: the eight required fields and the five
    optional ones. *)
Record PerformanceData := {
  basic : BasicTiming;
  fp : option Z;
  fcp : option Z;
  lcp : option Z;
  fid : option Z;
  cls : option float
}.

Inductive ErrorKind := js | resource | promise.

(** [ErrorReport['data']].  [message] is whatever the event carried, so it
    may be [undefined]. *)
Record ErrorData := {
  message : JS.str;
  filename : string;
  lineno : Z;
  colno : Z;
  stack : JS.str;
  kind : ErrorKind;
  timestamp : Z
}.

Inductive ReportData :=
| PerformanceReport (data : PerformanceData)
| ErrorReport (data : ErrorData).

Record LayoutShiftEntry := {
  value : float;
  hadRecentInput : bool
}.

Record LargestContentfulPaintEntry := {
  renderTime : Qc;
  loadTime : Qc
}.

(** A paint entry: its [name] and [startTime]. *)
Record PaintEntry := {
  name : string;
  startTime : Qc
}.

(** ** The host *)

(** What [event.target] can be. *)
Inductive EventTarget :=
| TargetWindow
| TargetElement (tagName : string) (src href : JS.str).

(** The object in [event.error] or [event.reason]. *)
Record Thrown := {
  thrown_message : JS.str;
  thrown_stack : JS.str
}.

(** An event dispatched on the ['error'] channel of [window]. *)
Record ErrorEvent := {
  ev_message : JS.str;
  ev_filename : JS.str;
  ev_lineno : option Z;
  ev_colno : option Z;
  ev_error : option Thrown;
  ev_target : option EventTarget
}.

Record PromiseRejectionEvent := {
  ev_reason : option Thrown
}.

(** The three observation streams the monitor subscribes to. *)
Inductive StreamKind := Paint | LargestContentfulPaint | LayoutShift.

Definition StreamKind_eqb (a b : StreamKind) : bool :=
  match a, b with
  | Paint, Paint
  | LargestContentfulPaint, LargestContentfulPaint
  | LayoutShift, LayoutShift => true
  | _, _ => false
  end.

(** What the handlers read from the globals when they run. *)
Record Host := {
  timing : PerformanceTiming;            (* performance.timing, a live object *)
  location_href : string;                (* window.location.href *)
  now : Z;                               (* Date.now() *)
  hasPerformanceObserver : bool;         (* 'PerformanceObserver' in window *)
  supportedEntryTypes : StreamKind -> bool; (* PerformanceObserver.supportedEntryTypes *)
  hasSendBeacon : bool                   (* navigator.sendBeacon *)
}.

(** ** State and effects *)

(** The closures the monitor registers, by the place they are created. *)
Inductive ErrorListener := JsErrorListener | ResourceErrorListener.

(** A call of [observe(options)]. *)
Record Subscription := {
  sub_type : StreamKind;
  sub_buffered : bool
}.

Inductive Channel := Beacon | Xhr.

(** What a handler does, in order. *)
Inductive Effect :=
| CallGetBasicTiming
| Transmit (via : Channel) (url : string) (payload : ReportData).

Record Monitor := {
  reportUrl : string;
  isMonitoring : bool;
  clsValue : float;
  (* registrations made on the host *)
  observers : list Subscription;           (* the observe() calls, in order *)
  errorListeners : list ErrorListener;     (* 'error', capture phase *)
  rejectionListeners : nat;                (* 'unhandledrejection' *)
  loadListeners : nat;                     (* 'load' *)
  (* log of effects, oldest first *)
  log : list Effect
}.

(** [new FrontendMonitor(reportUrl)] *)
Definition constructor (url : string) : Monitor :=
  {| reportUrl := url; isMonitoring := false; clsValue := 0%float;
     observers := []; errorListeners := []; rejectionListeners := 0%nat;
     loadListeners := 0%nat; log := [] |}.

(** *** The handler monad *)

Definition M (A : Type) : Type := Monitor -> A * Monitor.

Definition ret {A} (a : A) : M A := fun m => (a, m).

Definition bind {A B} (c : M A) (k : A -> M B) : M B :=
  fun m => let (a, m') := c m in k a m'.

Notation "x <- c ;; k" := (bind c (fun x => k))
  (at level 61, c at next level, right associativity).
Notation "c ;; k" := (bind c (fun _ => k))
  (at level 61, right associativity).

Definition get {A} (f : Monitor -> A) : M A := fun m => (f m, m).

Definition modify (f : Monitor -> Monitor) : M unit := fun m => (tt, f m).

Definition exec {A} (c : M A) (m : Monitor) : Monitor := snd (c m).

(** [for (const x of xs) body(x)] *)
Fixpoint for_of {A} (xs : list A) (body : A -> M unit) : M unit :=
  match xs with
  | [] => ret tt
  | x :: rest => body x ;; for_of rest body
  end.

Definition when (b : bool) (c : M unit) : M unit := if b then c else ret tt.

Definition set_isMonitoring (b : bool) (m : Monitor) : Monitor :=
  {| reportUrl := reportUrl m; isMonitoring := b; clsValue := clsValue m;
     observers := observers m; errorListeners := errorListeners m;
     rejectionListeners := rejectionListeners m;
     loadListeners := loadListeners m; log := log m |}.

Definition set_clsValue (v : float) (m : Monitor) : Monitor :=
  {| reportUrl := reportUrl m; isMonitoring := isMonitoring m; clsValue := v;
     observers := observers m; errorListeners := errorListeners m;
     rejectionListeners := rejectionListeners m;
     loadListeners := loadListeners m; log := log m |}.

Definition add_observer (s : Subscription) (m : Monitor) : Monitor :=
  {| reportUrl := reportUrl m; isMonitoring := isMonitoring m;
     clsValue := clsValue m;
     observers := observers m ++ [s]; errorListeners := errorListeners m;
     rejectionListeners := rejectionListeners m;
     loadListeners := loadListeners m; log := log m |}.

Definition add_errorListener (l : ErrorListener) (m : Monitor) : Monitor :=
  {| reportUrl := reportUrl m; isMonitoring := isMonitoring m;
     clsValue := clsValue m;
     observers := observers m; errorListeners := errorListeners m ++ [l];
     rejectionListeners := rejectionListeners m;
     loadListeners := loadListeners m; log := log m |}.

Definition add_rejectionListener (m : Monitor) : Monitor :=
  {| reportUrl := reportUrl m; isMonitoring := isMonitoring m;
     clsValue := clsValue m;
     observers := observers m; errorListeners := errorListeners m;
     rejectionListeners := S (rejectionListeners m);
     loadListeners := loadListeners m; log := log m |}.

Definition add_loadListener (m : Monitor) : Monitor :=
  {| reportUrl := reportUrl m; isMonitoring := isMonitoring m;
     clsValue := clsValue m;
     observers := observers m; errorListeners := errorListeners m;
     rejectionListeners := rejectionListeners m;
     loadListeners := S (loadListeners m); log := log m |}.

(** Append to the log. *)
Definition extend (l : list Effect) (m : Monitor) : Monitor :=
  {| reportUrl := reportUrl m; isMonitoring := isMonitoring m;
     clsValue := clsValue m;
     observers := observers m; errorListeners := errorListeners m;
     rejectionListeners := rejectionListeners m;
     loadListeners := loadListeners m; log := log m ++ l |}.

Definition emit (e : Effect) : M unit := modify (extend [e]).

(** ** The methods of [FrontendMonitor] *)

(** [getBasicTiming] (lines 120-132), as a function of the marks. *)
Definition basicTimingOf (t : PerformanceTiming) : BasicTiming :=
  {| dns := domainLookupEnd t - domainLookupStart t;
     tcp := connectEnd t - connectStart t;
     ttfb := responseStart t - requestStart t;
     domParse := domComplete t - domInteractive t;
     resources := loadEventStart t - domContentLoadedEventEnd t;
     domReady := domContentLoadedEventEnd t - navigationStart t;
     interactive := domInteractive t - navigationStart t;
     load := loadEventEnd t - navigationStart t |}.

(** The call itself: it reads the live timing object. *)
Definition getBasicTiming (h : Host) : M BasicTiming :=
  emit CallGetBasicTiming ;; ret (basicTimingOf (timing h)).

(** [report] (lines 196-207). *)
Definition report (h : Host) (data : ReportData) : M unit :=
  url <- get reportUrl ;;
  if hasSendBeacon h
  then emit (Transmit Beacon url data)
  else emit (Transmit Xhr url data).

(** [{ ...basic }] with no optional field set. *)
Definition spread (b : BasicTiming) : PerformanceData :=
  {| basic := b; fp := None; fcp := None; lcp := None; fid := None;
     cls := None |}.

Definition with_fp (v : Z) (d : PerformanceData) : PerformanceData :=
  {| basic := basic d; fp := Some v; fcp := fcp d; lcp := lcp d;
     fid := fid d; cls := cls d |}.

Definition with_fcp (v : Z) (d : PerformanceData) : PerformanceData :=
  {| basic := basic d; fp := fp d; fcp := Some v; lcp := lcp d;
     fid := fid d; cls := cls d |}.

Definition with_lcp (v : Z) (d : PerformanceData) : PerformanceData :=
  {| basic := basic d; fp := fp d; fcp := fcp d; lcp := Some v;
     fid := fid d; cls := cls d |}.

Definition with_cls (v : float) (d : PerformanceData) : PerformanceData :=
  {| basic := basic d; fp := fp d; fcp := fcp d; lcp := lcp d;
     fid := fid d; cls := Some v |}.

(** [list.getEntriesByName(n)] *)
Definition getEntriesByName (n : string) (l : list PaintEntry) : list PaintEntry :=
  filter (fun e => String.eqb (name e) n) l.

(** The callback of the paint observer (lines 76-88). *)
Definition onPaint (h : Host) (l : list PaintEntry) : M unit :=
  for_of (getEntriesByName "first-paint" l) (fun entry =>
    b <- getBasicTiming h ;;
    report h (PerformanceReport (with_fp (JS.round (startTime entry)) (spread b)))) ;;
  for_of (getEntriesByName "first-contentful-paint" l) (fun entry =>
    b <- getBasicTiming h ;;
    report h (PerformanceReport (with_fcp (JS.round (startTime entry)) (spread b)))).

(** The callback of the largest-contentful-paint observer (lines 92-101). *)
Definition onLargestContentfulPaint (h : Host)
    (entries : list LargestContentfulPaintEntry) : M unit :=
  if (0 <? List.length entries)%nat then
    match nth_error entries (List.length entries - 1) with
    | Some lastEntry =>
        let lcp := JS.num_or (renderTime lastEntry) (loadTime lastEntry) in
        b <- getBasicTiming h ;;
        report h (PerformanceReport (with_lcp (JS.round lcp) (spread b)))
    | None => ret tt  (* not reached: the index is in range *)
    end
  else ret tt.

(** The callback of the layout-shift observer (lines 105-115). *)
Definition onLayoutShift (h : Host) (entries : list LayoutShiftEntry) : M unit :=
  for_of entries (fun entry =>
    when (negb (hadRecentInput entry))
      (c <- get clsValue ;; modify (set_clsValue (c + value entry)%float))) ;;
  b <- getBasicTiming h ;;
  c <- get clsValue ;;
  report h (PerformanceReport (with_cls c (spread b))).

(** [setupPerformanceObserver] (lines 72-117): the three registrations. *)
Definition setupPerformanceObserver (h : Host) : M unit :=
  if negb (hasPerformanceObserver h) then ret tt
  else
    modify (add_observer {| sub_type := Paint; sub_buffered := true |}) ;;
    modify (add_observer {| sub_type := LargestContentfulPaint; sub_buffered := true |}) ;;
    modify (add_observer {| sub_type := LayoutShift; sub_buffered := true |}).

(** The object literal of the first ['error'] listener (lines 140-148). *)
Definition jsErrorData (h : Host) (event : ErrorEvent) : ErrorData :=
  {| message := ev_message event;
     filename := JS.str_or_default (ev_filename event) (location_href h);
     lineno := JS.int_or_default (ev_lineno event) 0;
     colno := JS.int_or_default (ev_colno event) 0;
     stack := match ev_error event with
              | Some e => thrown_stack e
              | None => None
              end;
     kind := js;
     timestamp := now h |}.

(** The first ['error'] listener (lines 137-150). *)
Definition onJsError (h : Host) (event : ErrorEvent) : M unit :=
  report h (ErrorReport (jsErrorData h event)).

(** The test on [event.target] in the second listener (line 155). *)
Definition isResourceElement (t : option EventTarget) : bool :=
  match t with
  | Some (TargetElement tag _ _) =>
      String.eqb tag "LINK" || String.eqb tag "SCRIPT" || String.eqb tag "IMG"
  | _ => false
  end.

Definition target_src (t : option EventTarget) : JS.str :=
  match t with Some (TargetElement _ s _) => s | _ => None end.

Definition target_href (t : option EventTarget) : JS.str :=
  match t with Some (TargetElement _ _ r) => r | _ => None end.

(** The object literal of the second ['error'] listener (lines 158-165). *)
Definition resourceErrorData (h : Host) (target : option EventTarget) : ErrorData :=
  {| message := Some ("Resource load error: " ++
                      JS.interpolate (JS.str_or (target_src target) (target_href target)))%string;
     filename := JS.str_or_default
                   (JS.str_or (target_src target) (target_href target))
                   EmptyString;
     lineno := 0;
     colno := 0;
     stack := None;
     kind := resource;
     timestamp := now h |}.

(** The second ['error'] listener (lines 153-168). *)
Definition onResourceError (h : Host) (event : ErrorEvent) : M unit :=
  let target := ev_target event in
  when (isResourceElement target)
    (report h (ErrorReport (resourceErrorData h target))).

(** The object literal of the rejection listener (lines 174-182). *)
Definition promiseErrorData (h : Host) (event : PromiseRejectionEvent) : ErrorData :=
  {| message := Some (JS.str_or_default
                        (match ev_reason event with
                         | Some r => thrown_message r
                         | None => None
                         end)
                        "Unhandled promise rejection");
     filename := location_href h;
     lineno := 0;
     colno := 0;
     stack := match ev_reason event with
              | Some r => thrown_stack r
              | None => None
              end;
     kind := promise;
     timestamp := now h |}.

(** The ['unhandledrejection'] listener (lines 171-184). *)
Definition onUnhandledRejection (h : Host) (event : PromiseRejectionEvent) : M unit :=
  report h (ErrorReport (promiseErrorData h event)).

(** [captureErrors] (lines 135-185): the three registrations. *)
Definition captureErrors : M unit :=
  modify (add_errorListener JsErrorListener) ;;
  modify (add_errorListener ResourceErrorListener) ;;
  modify add_rejectionListener.

(** [reportPerformance] (lines 188-193). *)
Definition reportPerformance (h : Host) : M unit :=
  b <- getBasicTiming h ;;
  report h (PerformanceReport (spread b)).

(** [init] (lines 62-69). *)
Definition init (h : Host) : M unit :=
  monitoring <- get isMonitoring ;;
  if monitoring then ret tt
  else
    modify (set_isMonitoring true) ;;
    setupPerformanceObserver h ;;
    captureErrors ;;
    modify add_loadListener.

(** ** The event loop *)

(** What the host can do to the monitor: the page calls a public method, or
    the platform dispatches an event or delivers a batch of entries. *)
Inductive Event :=
| CallInit
| CallReport (data : ReportData)
| Load
| Error (event : ErrorEvent)
| UnhandledRejection (event : PromiseRejectionEvent)
| PaintDelivery (entries : list PaintEntry)
| LargestContentfulPaintDelivery (entries : list LargestContentfulPaintEntry)
| LayoutShiftDelivery (entries : list LayoutShiftEntry).

(** Run a registered callback once per registration. *)
Fixpoint times (n : nat) (c : M unit) : M unit :=
  match n with
  | O => ret tt
  | S k => c ;; times k c
  end.

Definition runErrorListener (h : Host) (event : ErrorEvent) (l : ErrorListener) : M unit :=
  match l with
  | JsErrorListener => onJsError h event
  | ResourceErrorListener => onResourceError h event
  end.

(** The observers registered for one stream. *)
Definition observersOf (k : StreamKind) (m : Monitor) : list Subscription :=
  filter (fun s => StreamKind_eqb (sub_type s) k) (observers m).

Definition deliver (k : StreamKind) (callback : M unit) : M unit :=
  subs <- get (observersOf k) ;;
  for_of subs (fun _ => callback).

(** One turn of the event loop, with the globals as they are at that time. *)
Definition step (h : Host) (ev : Event) : M unit :=
  match ev with
  | CallInit => init h
  | CallReport data => report h data
  | Load =>
      n <- get loadListeners ;; times n (reportPerformance h)
  | Error event =>
      ls <- get errorListeners ;; for_of ls (runErrorListener h event)
  | UnhandledRejection event =>
      n <- get rejectionListeners ;; times n (onUnhandledRejection h event)
  | PaintDelivery entries => deliver Paint (onPaint h entries)
  | LargestContentfulPaintDelivery entries =>
      deliver LargestContentfulPaint (onLargestContentfulPaint h entries)
  | LayoutShiftDelivery entries => deliver LayoutShift (onLayoutShift h entries)
  end.

(** A whole execution: the events of the page, oldest first. *)
Fixpoint run (evs : list (Host * Event)) (m : Monitor) : Monitor :=
  match evs with
  | [] => m
  | (h, ev) :: rest => run rest (exec (step h ev) m)
  end.

(** ** Reading the log *)

Definition isCall (e : Effect) : bool :=
  match e with CallGetBasicTiming => true | Transmit _ _ _ => false end.

(** How many times [getBasicTiming] ran. *)
Definition basicTimingCalls (l : list Effect) : nat :=
  List.length (filter isCall l).

(** The payloads handed to [report], oldest first. *)
Fixpoint reports (l : list Effect) : list ReportData :=
  match l with
  | [] => []
  | CallGetBasicTiming :: rest => reports rest
  | Transmit _ _ d :: rest => d :: reports rest
  end.

(** The channel [report] picks on a host. *)
Definition channel (h : Host) : Channel :=
  if hasSendBeacon h then Beacon else Xhr.

(** The entries not flagged as following input. *)
Definition unflagged (entries : list LayoutShiftEntry) : list LayoutShiftEntry :=
  filter (fun e => negb (hadRecentInput e)) entries.

(** [total] with the values of the unflagged entries added to it one after
    the other, in the order of the list, each addition rounding as [+=]
    does. *)
Definition unflaggedSum (total : float) (entries : list LayoutShiftEntry) : float :=
  fold_left PrimFloat.add (map value (unflagged entries)) total.

(** The loop of lines 107-111 on binary64 numbers, where [+=] rounds; an
    entry is its [value] and its [hadRecentInput]. *)
Definition accumulateBinary64 (clsValue : float) (entries : list (float * bool)) : float :=
  fold_left
    (fun (acc : float) (entry : float * bool) =>
       if negb (snd entry) then (acc + fst entry)%float else acc)
    entries clsValue.

(** All layout-shift entries delivered during an execution. *)
Fixpoint shiftsDelivered (evs : list (Host * Event)) : list LayoutShiftEntry :=
  match evs with
  | [] => []
  | (_, LayoutShiftDelivery entries) :: rest => entries ++ shiftsDelivered rest
  | _ :: rest => shiftsDelivered rest
  end.

(** The registrations [init] makes; [po] tells whether the host had
    [PerformanceObserver] when [init] ran. *)
Definition registrations (po : bool) : list Subscription :=
  if po then [ {| sub_type := Paint; sub_buffered := true |};
               {| sub_type := LargestContentfulPaint; sub_buffered := true |};
               {| sub_type := LayoutShift; sub_buffered := true |} ]
  else [].

(** A monitor on which [init] has not run yet. *)
Definition unstarted (m : Monitor) : Prop :=
  isMonitoring m = false /\
  observers m = [] /\
  errorListeners m = [] /\
  rejectionListeners m = 0%nat /\
  loadListeners m = 0%nat.

(** A monitor on which [init] has run. *)
Definition started (po : bool) (m : Monitor) : Prop :=
  isMonitoring m = true /\
  observers m = registrations po /\
  errorListeners m = [JsErrorListener; ResourceErrorListener] /\
  rejectionListeners m = 1%nat /\
  loadListeners m = 1%nat.

(** The two states of the facade. *)
Inductive Phase := Uninitialized | Monitoring (po : bool).

Definition in_phase (p : Phase) (m : Monitor) : Prop :=
  match p with
  | Uninitialized => unstarted m
  | Monitoring po => started po m
  end.

(** The phase after one event. *)
Definition next_phase (p : Phase) (h : Host) (ev : Event) : Phase :=
  match p, ev with
  | Uninitialized, CallInit => Monitoring (hasPerformanceObserver h)
  | _, _ => p
  end.

(** ** Example hosts and events *)

Module Examples.

Definition timing0 : PerformanceTiming :=
  {| navigationStart := 40; domainLookupStart := 100; domainLookupEnd := 112;
     connectStart := 112; connectEnd := 130; requestStart := 131;
     responseStart := 180; domInteractive := 400;
     domContentLoadedEventEnd := 420; domComplete := 600;
     loadEventStart := 600; loadEventEnd := 605 |}.

Definition host0 : Host :=
  {| timing := timing0; location_href := "https://site.example/page";
     now := 1700000000000; hasPerformanceObserver := true;
     supportedEntryTypes := fun _ => true; hasSendBeacon := true |}.

(** A host with [PerformanceObserver] that does not know layout shifts. *)
Definition hostNoLayoutShift : Host :=
  {| timing := timing0; location_href := "https://site.example/page";
     now := 1700000000000; hasPerformanceObserver := true;
     supportedEntryTypes := fun k => negb (StreamKind_eqb k LayoutShift);
     hasSendBeacon := true |}.

Definition monitor0 : Monitor :=
  exec (init host0) (constructor "https://collector.example/r").

Definition shifts : list LayoutShiftEntry :=
  [ {| value := 0.05%float; hadRecentInput := false |};
    {| value := 0.10%float; hadRecentInput := true |};
    {| value := 0.03%float; hadRecentInput := false |} ].

Definition lcp1 : LargestContentfulPaintEntry :=
  {| renderTime := Q2Qc (9000 # 10); loadTime := Q2Qc (8000 # 10) |}.

Definition lcp2 : LargestContentfulPaintEntry :=
  {| renderTime := Q2Qc (12345 # 10); loadTime := Q2Qc (11000 # 10) |}.

(** An entry whose render time the platform withholds. *)
Definition lcpCrossOrigin : LargestContentfulPaintEntry :=
  {| renderTime := Q2Qc 0; loadTime := Q2Qc (10996 # 10) |}.

(** An image whose URL is not known fails to load. *)
Definition brokenImage : ErrorEvent :=
  {| ev_message := None; ev_filename := None; ev_lineno := None;
     ev_colno := None; ev_error := None;
     ev_target := Some (TargetElement "IMG" (Some EmptyString) None) |}.

(** A stylesheet that fails to load. *)
Definition brokenStylesheet : ErrorEvent :=
  {| ev_message := None; ev_filename := None; ev_lineno := None;
     ev_colno := None; ev_error := None;
     ev_target := Some (TargetElement "LINK" None
                          (Some "https://cdn.example/site.css"%string)) |}.

Definition scriptError : ErrorEvent :=
  {| ev_message := Some "x is not defined"%string; ev_filename := None;
     ev_lineno := None; ev_colno := None; ev_error := None;
     ev_target := Some TargetWindow |}.

(** A script error whose location is known. *)
Definition locatedScriptError : ErrorEvent :=
  {| ev_message := Some "x is not defined"%string;
     ev_filename := Some "https://site.example/app.js"%string;
     ev_lineno := Some 0; ev_colno := Some 17;
     ev_error := Some {| thrown_message := Some "x is not defined"%string;
                         thrown_stack := Some "at main"%string |};
     ev_target := Some TargetWindow |}.

End Examples.

(** ** What each event does, in closed form *)

(** What a loop of timed reports adds to the log. *)
Definition timedReports {A} (h : Host) (url : string)
    (f : A -> BasicTiming -> ReportData) (xs : list A) : list Effect :=
  flat_map (fun x => [CallGetBasicTiming;
                      Transmit (channel h) url (f x (basicTimingOf (timing h)))]) xs.

(** What one paint delivery adds to the log. *)
Definition paintEffects (h : Host) (url : string) (l : list PaintEntry) : list Effect :=
  timedReports h url
    (fun entry b => PerformanceReport (with_fp (JS.round (startTime entry)) (spread b)))
    (getEntriesByName "first-paint" l) ++
  timedReports h url
    (fun entry b => PerformanceReport (with_fcp (JS.round (startTime entry)) (spread b)))
    (getEntriesByName "first-contentful-paint" l).

(** What one largest-contentful-paint delivery adds to the log. *)
Definition lcpEffects (h : Host) (url : string)
    (entries : list LargestContentfulPaintEntry) : list Effect :=
  match rev entries with
  | [] => []
  | lastEntry :: _ =>
      [CallGetBasicTiming;
       Transmit (channel h) url
         (PerformanceReport
            (with_lcp (JS.round (JS.num_or (renderTime lastEntry) (loadTime lastEntry)))
                      (spread (basicTimingOf (timing h)))))]
  end.

(** What one ['error'] event adds to the log once both listeners are
    installed. *)
Definition errorEffects (h : Host) (url : string) (event : ErrorEvent) : list Effect :=
  Transmit (channel h) url (ErrorReport (jsErrorData h event)) ::
  (if isResourceElement (ev_target event)
   then [Transmit (channel h) url (ErrorReport (resourceErrorData h (ev_target event)))]
   else []).

(** What an event adds to the log, by the phase the monitor is in. *)
Definition effectsOf (p : Phase) (h : Host) (m : Monitor) (ev : Event) : list Effect :=
  match ev, p with
  | CallReport data, _ => [Transmit (channel h) (reportUrl m) data]
  | CallInit, _ => []
  | _, Uninitialized => []
  | Load, Monitoring _ =>
      [CallGetBasicTiming;
       Transmit (channel h) (reportUrl m)
         (PerformanceReport (spread (basicTimingOf (timing h))))]
  | Error event, Monitoring _ => errorEffects h (reportUrl m) event
  | UnhandledRejection event, Monitoring _ =>
      [Transmit (channel h) (reportUrl m) (ErrorReport (promiseErrorData h event))]
  | _, Monitoring false => []
  | PaintDelivery entries, Monitoring true => paintEffects h (reportUrl m) entries
  | LargestContentfulPaintDelivery entries, Monitoring true =>
      lcpEffects h (reportUrl m) entries
  | LayoutShiftDelivery entries, Monitoring true =>
      [CallGetBasicTiming;
       Transmit (channel h) (reportUrl m)
         (PerformanceReport
            (with_cls (unflaggedSum (clsValue m) entries)
                      (spread (basicTimingOf (timing h)))))]
  end.

(** The accumulator after an event, from the accumulator before it. *)
Definition totalOf (p : Phase) (ev : Event) (total : float) : float :=
  match ev, p with
  | LayoutShiftDelivery entries, Monitoring true => unflaggedSum total entries
  | _, _ => total
  end.

(** The monitor [init] leaves behind when it does run. *)
Definition initialized (h : Host) (m : Monitor) : Monitor :=
  {| reportUrl := reportUrl m; isMonitoring := true; clsValue := clsValue m;
     observers := observers m ++ registrations (hasPerformanceObserver h);
     errorListeners := errorListeners m ++ [JsErrorListener; ResourceErrorListener];
     rejectionListeners := S (rejectionListeners m);
     loadListeners := S (loadListeners m); log := log m |}.

(** The monitor after one event, by the phase it was in. *)
Definition after (p : Phase) (h : Host) (ev : Event) (m : Monitor) : Monitor :=
  extend (effectsOf p h m ev)
    (set_clsValue (totalOf p ev (clsValue m))
       (match p, ev with
        | Uninitialized, CallInit => initialized h m
        | _, _ => m
        end)).

(** The phase after a whole execution. *)
Fixpoint phase_after (p : Phase) (evs : list (Host * Event)) : Phase :=
  match evs with
  | [] => p
  | (h, ev) :: rest => phase_after (next_phase p h ev) rest
  end.

(** The accumulator after a whole execution, from the accumulator before
    it. *)
Fixpoint totalAfter (p : Phase) (evs : list (Host * Event)) (total : float) : float :=
  match evs with
  | [] => total
  | (h, ev) :: rest => totalAfter (next_phase p h ev) rest (totalOf p ev total)
  end.

(** A number of the host that is not NaN and not below zero. *)
Definition nonneg (x : spec_float) : bool :=
  match x with
  | S754_zero _ | S754_infinity false | S754_finite false _ _ => true
  | _ => false
  end.

(** A binary64 number that is not below the canonical number [mx * 2^ex]. *)
Definition above (mx : positive) (ex : Z) (r : spec_float) : Prop :=
  match r with
  | S754_infinity false => True
  | S754_finite false mr er => ex < er \/ (ex = er /\ (mx <= mr)%positive)
  | _ => False
  end.

(** How many times one event makes the monitor call [getBasicTiming]. *)
Definition timingCallsOf (p : Phase) (ev : Event) : nat :=
  match p, ev with
  | Monitoring _, Load => 1
  | Monitoring true, PaintDelivery entries =>
      List.length (getEntriesByName "first-paint" entries) +
      List.length (getEntriesByName "first-contentful-paint" entries)
  | Monitoring true, LargestContentfulPaintDelivery [] => 0
  | Monitoring true, LargestContentfulPaintDelivery (_ :: _) => 1
  | Monitoring true, LayoutShiftDelivery _ => 1
  | _, _ => 0
  end.

(** ** Reading reports *)

(** A transmission to [url] over the channel the host [h] offers. *)
Definition sentFrom (h : Host) (url : string) (e : Effect) : Prop :=
  match e with
  | CallGetBasicTiming => True
  | Transmit c u _ => c = (if hasSendBeacon h then Beacon else Xhr) /\ u = url
  end.

(** How many of the five optional fields a report sets. *)
Definition isSet {A} (field : option A) : nat :=
  match field with Some _ => 1 | None => 0 end.

Definition optionalFields (d : PerformanceData) : nat :=
  isSet (fp d) + isSet (fcp d) + isSet (lcp d) + isSet (fid d) + isSet (cls d).

(** A performance report as the monitor itself builds them. *)
Definition ownReport (e : Effect) : Prop :=
  match e with
  | Transmit _ _ (PerformanceReport d) =>
      fid d = None /\ (optionalFields d <= 1)%nat
  | _ => True
  end.

(** The page calling a public method, as opposed to the platform. *)
Definition isCallReport (ev : Event) : bool :=
  match ev with CallReport _ => true | _ => false end.

Definition isCallInit (ev : Event) : bool :=
  match ev with CallInit => true | _ => false end.

(** The cls values reported, oldest first. *)
Fixpoint clsReported (l : list Effect) : list float :=
  match l with
  | [] => []
  | Transmit _ _ (PerformanceReport d) :: rest =>
      match cls d with
      | Some c => c :: clsReported rest
      | None => clsReported rest
      end
  | _ :: rest => clsReported rest
  end.

(** A list of numbers that starts at or above [lo] and never goes down. *)
Fixpoint nondecreasingFrom (lo : float) (l : list float) : Prop :=
  match l with
  | [] => True
  | x :: rest => (lo <=? x)%float = true /\ nondecreasingFrom x rest
  end.

(** The report of one first-paint entry and of one first-contentful-paint
    entry (lines 78-81 and 84-87). *)
Definition fpReport (h : Host) (entry : PaintEntry) : ReportData :=
  PerformanceReport
    {| basic := basicTimingOf (timing h);
       fp := Some (JS.round (startTime entry)); fcp := None; lcp := None;
       fid := None; cls := None |}.

Definition fcpReport (h : Host) (entry : PaintEntry) : ReportData :=
  PerformanceReport
    {| basic := basicTimingOf (timing h);
       fp := None; fcp := Some (JS.round (startTime entry)); lcp := None;
       fid := None; cls := None |}.

(** ** The monad and the log *)

Lemma bind_eq {A B} (c : M A) (k : A -> M B) (m : Monitor) :
  bind c k m = k (fst (c m)) (snd (c m)).
Proof. unfold bind. destruct (c m); reflexivity. Qed.

Lemma extend_nil (m : Monitor) : extend [] m = m.
Proof. destruct m; unfold extend; simpl. now rewrite app_nil_r. Qed.

Lemma extend_extend (l1 l2 : list Effect) (m : Monitor) :
  extend l2 (extend l1 m) = extend (l1 ++ l2) m.
Proof. unfold extend; simpl. now rewrite app_assoc. Qed.

Lemma set_clsValue_same (m : Monitor) : set_clsValue (clsValue m) m = m.
Proof. now destruct m. Qed.

(** ** The reporter and the timing reader *)

Lemma getBasicTiming_eq (h : Host) (m : Monitor) :
  getBasicTiming h m = (basicTimingOf (timing h), extend [CallGetBasicTiming] m).
Proof. reflexivity. Qed.

Lemma report_eq (h : Host) (d : ReportData) (m : Monitor) :
  report h d m = (tt, extend [Transmit (channel h) (reportUrl m) d] m).
Proof. unfold report, channel, bind, get. now destruct (hasSendBeacon h). Qed.

(** A handler that computes the timing and reports once. *)
Lemma timed_report_eq (h : Host) (f : BasicTiming -> ReportData) (m : Monitor) :
  (b <- getBasicTiming h ;; report h (f b)) m =
  (tt, extend [CallGetBasicTiming;
               Transmit (channel h) (reportUrl m) (f (basicTimingOf (timing h)))] m).
Proof.
  rewrite bind_eq, getBasicTiming_eq; simpl fst; simpl snd.
  rewrite report_eq, extend_extend. reflexivity.
Qed.

Lemma reportPerformance_eq (h : Host) (m : Monitor) :
  reportPerformance h m =
  (tt, extend [CallGetBasicTiming;
               Transmit (channel h) (reportUrl m)
                 (PerformanceReport (spread (basicTimingOf (timing h))))] m).
Proof.
  unfold reportPerformance.
  apply (timed_report_eq h (fun b => PerformanceReport (spread b))).
Qed.

(** ** The observer callbacks *)

Lemma for_of_timed_report {A} (h : Host) (f : A -> BasicTiming -> ReportData)
    (xs : list A) (m : Monitor) :
  for_of xs (fun x => b <- getBasicTiming h ;; report h (f x b)) m =
  (tt, extend (timedReports h (reportUrl m) f xs) m).
Proof.
  revert m; induction xs as [|x xs IH]; intros m; simpl.
  - unfold ret. now rewrite extend_nil.
  - rewrite bind_eq, (timed_report_eq h (f x)); simpl fst; simpl snd.
    rewrite IH, extend_extend. reflexivity.
Qed.

Lemma onPaint_eq (h : Host) (l : list PaintEntry) (m : Monitor) :
  onPaint h l m = (tt, extend (paintEffects h (reportUrl m) l) m).
Proof.
  unfold onPaint, paintEffects.
  rewrite bind_eq.
  rewrite (for_of_timed_report h
    (fun entry b => PerformanceReport (with_fp (JS.round (startTime entry)) (spread b)))).
  simpl fst; simpl snd.
  rewrite (for_of_timed_report h
    (fun entry b => PerformanceReport (with_fcp (JS.round (startTime entry)) (spread b)))).
  rewrite extend_extend. reflexivity.
Qed.

Lemma nth_error_last {A} (pre : list A) (x : A) :
  nth_error (pre ++ [x]) (List.length (pre ++ [x]) - 1) = Some x.
Proof.
  rewrite length_app; simpl.
  replace (List.length pre + 1 - 1)%nat with (List.length pre + 0)%nat by lia.
  rewrite nth_error_app2 by lia.
  replace (List.length pre + 0 - List.length pre)%nat with 0%nat by lia.
  reflexivity.
Qed.

Lemma onLargestContentfulPaint_nil (h : Host) (m : Monitor) :
  onLargestContentfulPaint h [] m = (tt, m).
Proof. reflexivity. Qed.

Lemma onLargestContentfulPaint_last (h : Host)
    (pre : list LargestContentfulPaintEntry) (lastEntry : LargestContentfulPaintEntry)
    (m : Monitor) :
  onLargestContentfulPaint h (pre ++ [lastEntry]) m =
  (tt, extend [CallGetBasicTiming;
               Transmit (channel h) (reportUrl m)
                 (PerformanceReport
                    (with_lcp (JS.round (JS.num_or (renderTime lastEntry) (loadTime lastEntry)))
                              (spread (basicTimingOf (timing h)))))] m).
Proof.
  unfold onLargestContentfulPaint.
  rewrite nth_error_last.
  replace (0 <? List.length (pre ++ [lastEntry]))%nat with true.
  - apply (timed_report_eq h (fun b => PerformanceReport (with_lcp _ (spread b)))).
  - symmetry; apply Nat.ltb_lt. rewrite length_app; simpl; lia.
Qed.

Lemma set_clsValue_twice (a b : float) (m : Monitor) :
  set_clsValue a (set_clsValue b m) = set_clsValue a m.
Proof. reflexivity. Qed.

Lemma unflaggedSum_cons (total : float) (e : LayoutShiftEntry)
    (rest : list LayoutShiftEntry) :
  unflaggedSum total (e :: rest) =
  if hadRecentInput e then unflaggedSum total rest
  else unflaggedSum (total + value e)%float rest.
Proof. unfold unflaggedSum, unflagged; simpl. now destruct (hadRecentInput e). Qed.

Lemma unflaggedSum_app (total : float) (xs ys : list LayoutShiftEntry) :
  unflaggedSum total (xs ++ ys) = unflaggedSum (unflaggedSum total xs) ys.
Proof.
  unfold unflaggedSum, unflagged.
  now rewrite filter_app, map_app, fold_left_app.
Qed.

(** The loop of the layout-shift callback (lines 107-111). *)
Lemma layoutShift_loop (entries : list LayoutShiftEntry) (m : Monitor) :
  for_of entries (fun entry =>
    when (negb (hadRecentInput entry))
      (c <- get clsValue ;; modify (set_clsValue (c + value entry)%float))) m =
  (tt, set_clsValue (unflaggedSum (clsValue m) entries) m).
Proof.
  revert m; induction entries as [|e rest IH]; intros m.
  - simpl. unfold ret, unflaggedSum; simpl. now rewrite set_clsValue_same.
  - simpl for_of. rewrite bind_eq, unflaggedSum_cons.
    destruct (hadRecentInput e); simpl fst; simpl snd.
    + apply IH.
    + rewrite IH. simpl clsValue. now rewrite set_clsValue_twice.
Qed.

Lemma onLayoutShift_eq (h : Host) (entries : list LayoutShiftEntry) (m : Monitor) :
  onLayoutShift h entries m =
  (tt, extend [CallGetBasicTiming;
               Transmit (channel h) (reportUrl m)
                 (PerformanceReport
                    (with_cls (unflaggedSum (clsValue m) entries)
                              (spread (basicTimingOf (timing h)))))]
         (set_clsValue (unflaggedSum (clsValue m) entries) m)).
Proof.
  unfold onLayoutShift.
  rewrite bind_eq, layoutShift_loop; simpl fst; simpl snd.
  rewrite bind_eq, getBasicTiming_eq; simpl fst; simpl snd.
  rewrite bind_eq; unfold get at 1; simpl fst; simpl snd.
  rewrite report_eq, extend_extend. reflexivity.
Qed.

Lemma onLargestContentfulPaint_eq (h : Host)
    (entries : list LargestContentfulPaintEntry) (m : Monitor) :
  onLargestContentfulPaint h entries m =
  (tt, extend (lcpEffects h (reportUrl m) entries) m).
Proof.
  destruct entries as [|e rest] using rev_ind.
  - now rewrite onLargestContentfulPaint_nil, extend_nil.
  - rewrite onLargestContentfulPaint_last. unfold lcpEffects.
    now rewrite rev_app_distr.
Qed.

(** ** The error listeners *)

Lemma onResourceError_eq (h : Host) (event : ErrorEvent) (m : Monitor) :
  onResourceError h event m =
  (tt, extend (if isResourceElement (ev_target event)
               then [Transmit (channel h) (reportUrl m)
                       (ErrorReport (resourceErrorData h (ev_target event)))]
               else []) m).
Proof.
  unfold onResourceError, when.
  destruct (isResourceElement (ev_target event)).
  - apply report_eq.
  - unfold ret. now rewrite extend_nil.
Qed.

Lemma error_listeners_eq (h : Host) (event : ErrorEvent) (m : Monitor) :
  for_of [JsErrorListener; ResourceErrorListener] (runErrorListener h event) m =
  (tt, extend (errorEffects h (reportUrl m) event) m).
Proof.
  cbn [for_of runErrorListener]. rewrite bind_eq. unfold onJsError.
  rewrite report_eq; simpl fst; simpl snd.
  rewrite bind_eq, onResourceError_eq.
  simpl fst; simpl snd. unfold ret. rewrite extend_extend. reflexivity.
Qed.

(** ** One step of the event loop *)

Lemma init_first (h : Host) (m : Monitor) :
  isMonitoring m = false -> init h m = (tt, initialized h m).
Proof.
  intros Hm. unfold init. rewrite bind_eq. unfold get; simpl fst; simpl snd.
  rewrite Hm. unfold setupPerformanceObserver, captureErrors, initialized, registrations.
  destruct (hasPerformanceObserver h); simpl;
    unfold bind, modify, ret; simpl;
    unfold add_loadListener, add_rejectionListener, add_errorListener,
      add_observer, set_isMonitoring; simpl;
    rewrite <- ?app_assoc; simpl; try rewrite app_nil_r; reflexivity.
Qed.

Lemma init_again (h : Host) (m : Monitor) :
  isMonitoring m = true -> init h m = (tt, m).
Proof.
  intros Hm. unfold init. rewrite bind_eq. unfold get; simpl fst; simpl snd.
  now rewrite Hm.
Qed.

Lemma deliver_eq (k : StreamKind) (callback : M unit) (m : Monitor) :
  deliver k callback m = for_of (observersOf k m) (fun _ => callback) m.
Proof. reflexivity. Qed.

Ltac tidy :=
  rewrite ?set_clsValue_same, ?extend_nil.

Ltac start_step :=
  unfold step; rewrite ?deliver_eq, ?bind_eq; unfold get, observersOf;
  simpl fst; simpl snd.

Lemma step_unstarted (h : Host) (ev : Event) (m : Monitor) :
  unstarted m -> step h ev m = (tt, after Uninitialized h ev m).
Proof.
  intros (Hm & Hobs & Herr & Hrej & Hload).
  unfold after; destruct ev; simpl effectsOf; simpl totalOf.
  - unfold step. rewrite (init_first h m Hm).
    change (clsValue m) with (clsValue (initialized h m)). now tidy.
  - unfold step. rewrite report_eq. now tidy.
  - start_step. rewrite Hload. now tidy.
  - start_step. rewrite Herr. now tidy.
  - start_step. rewrite Hrej. now tidy.
  - start_step. rewrite Hobs. now tidy.
  - start_step. rewrite Hobs. now tidy.
  - start_step. rewrite Hobs. now tidy.
Qed.

Lemma step_started (po : bool) (h : Host) (ev : Event) (m : Monitor) :
  started po m -> step h ev m = (tt, after (Monitoring po) h ev m).
Proof.
  intros (Hm & Hobs & Herr & Hrej & Hload).
  unfold after; destruct ev; simpl effectsOf; simpl totalOf.
  - unfold step. rewrite (init_again h m Hm). now tidy.
  - unfold step. rewrite report_eq. now tidy.
  - start_step. rewrite Hload. cbn [times]. rewrite bind_eq, reportPerformance_eq.
    now tidy.
  - start_step. rewrite Herr, error_listeners_eq. now tidy.
  - start_step. rewrite Hrej. cbn [times]. rewrite bind_eq.
    unfold onUnhandledRejection. rewrite report_eq. now tidy.
  - start_step. rewrite Hobs. destruct po; simpl; [|now tidy].
    rewrite bind_eq, onPaint_eq. now tidy.
  - start_step. rewrite Hobs. destruct po; simpl; [|now tidy].
    rewrite bind_eq, onLargestContentfulPaint_eq. now tidy.
  - start_step. rewrite Hobs. destruct po; simpl; [|now tidy].
    rewrite bind_eq, onLayoutShift_eq. reflexivity.
Qed.

(** Every event is handled as [after] says. *)
Lemma step_spec (p : Phase) (h : Host) (ev : Event) (m : Monitor) :
  in_phase p m -> step h ev m = (tt, after p h ev m).
Proof.
  destruct p; simpl; [apply step_unstarted | apply step_started].
Qed.

Lemma exec_step (p : Phase) (h : Host) (ev : Event) (m : Monitor) :
  in_phase p m -> exec (step h ev) m = after p h ev m.
Proof. intros H. unfold exec. now rewrite (step_spec p). Qed.

(** The phase is an invariant of the event loop. *)
Lemma after_phase (p : Phase) (h : Host) (ev : Event) (m : Monitor) :
  in_phase p m -> in_phase (next_phase p h ev) (after p h ev m).
Proof.
  destruct p as [|po]; simpl in_phase.
  - intros (Hm & Hobs & Herr & Hrej & Hload).
    destruct ev; simpl; unfold started, unstarted; simpl;
      rewrite ?Hobs, ?Herr, ?Hrej, ?Hload; simpl; auto.
  - intros (Hm & Hobs & Herr & Hrej & Hload).
    destruct ev; simpl; unfold started; simpl; auto.
Qed.

Lemma constructor_unstarted (url : string) : unstarted (constructor url).
Proof. unfold unstarted; simpl; auto. Qed.

Lemma run_phase (evs : list (Host * Event)) (p : Phase) (m : Monitor) :
  in_phase p m -> in_phase (phase_after p evs) (run evs m).
Proof.
  revert p m; induction evs as [|[h ev] rest IH]; intros p m Hp; simpl.
  - exact Hp.
  - apply IH. rewrite (exec_step p h ev m Hp). now apply after_phase.
Qed.

Lemma run_app (evs1 evs2 : list (Host * Event)) (m : Monitor) :
  run (evs1 ++ evs2) m = run evs2 (run evs1 m).
Proof.
  revert m; induction evs1 as [|[h ev] rest IH]; intros m; simpl; auto.
Qed.

Lemma phase_after_monitoring (po : bool) (evs : list (Host * Event)) :
  phase_after (Monitoring po) evs = Monitoring po.
Proof. induction evs as [|[h ev] rest IH]; simpl; auto. Qed.

Lemma run_started (po : bool) (evs : list (Host * Event)) (m : Monitor) :
  started po m -> started po (run evs m).
Proof.
  intros H. generalize (run_phase evs (Monitoring po) m H).
  now rewrite phase_after_monitoring.
Qed.

Lemma init_started (h : Host) (url : string) :
  started (hasPerformanceObserver h) (exec (init h) (constructor url)).
Proof.
  unfold exec. rewrite init_first by reflexivity.
  unfold started; simpl; auto.
Qed.

(** ** The accumulator over an execution *)

Lemma after_clsValue (p : Phase) (h : Host) (ev : Event) (m : Monitor) :
  clsValue (after p h ev m) = totalOf p ev (clsValue m).
Proof. reflexivity. Qed.

Lemma run_clsValue (evs : list (Host * Event)) (p : Phase) (m : Monitor) :
  in_phase p m ->
  clsValue (run evs m) = totalAfter p evs (clsValue m).
Proof.
  revert p m; induction evs as [|[h ev] rest IH]; intros p m Hp; simpl.
  - reflexivity.
  - rewrite (exec_step p h ev m Hp).
    rewrite (IH (next_phase p h ev)) by now apply after_phase.
    now rewrite after_clsValue.
Qed.

Lemma totalAfter_started (evs : list (Host * Event)) (total : float) :
  totalAfter (Monitoring true) evs total =
  unflaggedSum total (shiftsDelivered evs).
Proof.
  revert total; induction evs as [|[h ev] rest IH]; intros total; simpl.
  - reflexivity.
  - destruct ev; simpl; rewrite IH, ?unflaggedSum_app; reflexivity.
Qed.

Lemma unflaggedSum_flagged (total : float) (entries : list LayoutShiftEntry) :
  forallb hadRecentInput entries = true -> unflaggedSum total entries = total.
Proof.
  induction entries as [|e rest IH]; intros H.
  - reflexivity.
  - simpl in H. apply andb_true_iff in H as [He Hrest].
    rewrite unflaggedSum_cons, He. now apply IH.
Qed.

(** ** Binary64 addition of non-negative numbers

    The facts below are read off the specification of binary64 addition
    ([SFadd]): the sum of two positive numbers is the rounding of an integer
    mantissa that is at least the aligned mantissa of the first, and
    rounding to nearest, which first truncates, cannot fall below a number
    of the format. *)

Lemma digits2_pos_size (p : positive) : digits2_pos p = Pos.size p.
Proof. induction p; simpl; now rewrite ?IHp. Qed.

Lemma digits2_log2 (p : positive) : Zpos (digits2_pos p) = Z.log2 (Zpos p) + 1.
Proof.
  rewrite digits2_pos_size. destruct p; simpl; try rewrite Pos.add_1_r; reflexivity.
Qed.

Lemma digits2_bounds (p : positive) :
  2 ^ (Zpos (digits2_pos p) - 1) <= Zpos p < 2 ^ Zpos (digits2_pos p).
Proof.
  rewrite digits2_log2.
  replace (Z.log2 (Zpos p) + 1 - 1) with (Z.log2 (Zpos p)) by lia.
  apply (Z.log2_spec (Zpos p)). lia.
Qed.

Lemma digits2_mono (p q : positive) :
  Zpos p <= Zpos q -> Zpos (digits2_pos p) <= Zpos (digits2_pos q).
Proof.
  intros H. rewrite !digits2_log2.
  pose proof (Z.log2_le_mono _ _ H). lia.
Qed.

Lemma iter_xO_pow (d p : positive) : Zpos (Pos.iter xO p d) = Zpos p * 2 ^ Zpos d.
Proof.
  induction d as [|d IH] using Pos.peano_ind.
  - simpl. lia.
  - rewrite Pos.iter_succ, Pos2Z.inj_succ, Z.pow_succ_r by lia.
    rewrite Pos2Z.inj_xO, IH. lia.
Qed.

Lemma shr_1_m (mrs : shr_record) :
  0 <= shr_m mrs -> shr_m (shr_1 mrs) = shr_m mrs / 2.
Proof.
  destruct mrs as [m r s]; simpl. intros Hm.
  destruct m as [|[p|p|]|p]; simpl; try lia; try reflexivity.
  - rewrite Pos2Z.inj_xI. apply Z.div_unique with 1; lia.
  - rewrite Pos2Z.inj_xO. apply Z.div_unique with 0; lia.
Qed.

Lemma iter_shr_1_m (n : positive) (mrs : shr_record) :
  0 <= shr_m mrs ->
  shr_m (iter_pos shr_1 n mrs) = shr_m mrs / 2 ^ Zpos n.
Proof.
  revert mrs. induction n as [n IH|n IH|]; intros mrs Hm; simpl iter_pos.
  - assert (H1 : 0 <= shr_m (shr_1 mrs)) by (rewrite shr_1_m by lia; apply Z.div_pos; lia).
    assert (H2 : 0 <= shr_m (iter_pos shr_1 n (shr_1 mrs)))
      by (rewrite IH by lia; apply Z.div_pos; lia).
    rewrite IH, IH, shr_1_m by lia.
    rewrite !Z.div_div by lia. f_equal.
    assert (E : Z.pos n~1 = 1 + Z.pos n + Z.pos n) by lia.
    rewrite E, !Z.pow_add_r by lia. rewrite Z.pow_1_r. ring.
  - assert (H2 : 0 <= shr_m (iter_pos shr_1 n mrs))
      by (rewrite IH by lia; apply Z.div_pos; lia).
    rewrite IH, IH by lia.
    rewrite !Z.div_div by lia. f_equal.
    assert (E : Z.pos n~0 = Z.pos n + Z.pos n) by lia.
    rewrite E, !Z.pow_add_r by lia. ring.
  - rewrite shr_1_m by lia. now rewrite Z.pow_1_r.
Qed.

Lemma shr_m_spec (mrs : shr_record) (e n : Z) :
  0 <= shr_m mrs ->
  shr_m (fst (shr mrs e n)) = shr_m mrs / 2 ^ Z.max n 0 /\
  snd (shr mrs e n) = e + Z.max n 0.
Proof.
  intros Hm. destruct n as [|n|n]; simpl.
  - rewrite Z.div_1_r. lia.
  - rewrite iter_shr_1_m by lia. split; [reflexivity | lia].
  - rewrite Z.div_1_r. lia.
Qed.

Lemma round_nearest_even_ge (m : Z) (l : location) :
  m <= round_nearest_even m l <= m + 1.
Proof.
  destruct l as [|[| |]]; simpl; try lia. destruct (Z.even m); lia.
Qed.

Lemma fexp_eq (e : Z) : fexp prec emax e = Z.max (e - 53) (-1074).
Proof. reflexivity. Qed.

Lemma shr_record_of_loc_m (m : Z) (l : location) : shr_m (shr_record_of_loc m l) = m.
Proof. destruct l as [|[| |]]; reflexivity. Qed.

Lemma binary_round_aux_above (mx : positive) (ex : Z) (p : positive) (ez : Z) :
  canonical_mantissa prec emax mx ex = true ->
  ez <= ex ->
  Zpos mx * 2 ^ (ex - ez) <= Zpos p ->
  above mx ex (binary_round_aux prec emax false (Zpos p) ez loc_Exact).
Proof.
  intros Hcan Hez Hle.
  unfold canonical_mantissa in Hcan. apply Z.eqb_eq in Hcan.
  rewrite fexp_eq in Hcan.
  pose proof (digits2_bounds mx) as Hdx.
  pose proof (digits2_bounds p) as Hdp.
  set (dx := Zpos (digits2_pos mx)) in *.
  set (d := Zpos (digits2_pos p)) in *.
  assert (Hpow : 0 < 2 ^ (ex - ez)) by (apply Z.pow_pos_nonneg; lia).
  (* the sum has at least as many digits as the aligned mantissa *)
  assert (Hd : dx + ex <= d + ez).
  { destruct (Z_lt_le_dec (d + ez) (dx + ex)) as [Hlt|]; [|assumption].
    exfalso.
    assert (H1 : 2 ^ d <= 2 ^ (dx - 1 + (ex - ez)))
      by (apply Z.pow_le_mono_r; lia).
    rewrite Z.pow_add_r in H1 by lia.
    nia. }
  unfold binary_round_aux, shr_fexp.
  change (Zdigits2 (Zpos p)) with d.
  rewrite fexp_eq.
  set (n1 := Z.max (d + ez - 53) (-1074) - ez).
  assert (Hn1 : ex - ez <= n1) by (unfold n1; lia).
  destruct (shr (shr_record_of_loc (Zpos p) loc_Exact) ez n1) as [mrs' e'] eqn:Hshr1.
  pose proof (shr_m_spec (shr_record_of_loc (Zpos p) loc_Exact) ez n1) as [Hm' He'];
    [simpl; lia|].
  rewrite Hshr1 in Hm', He'. simpl fst in Hm'; simpl snd in He'.
  change (shr_m (shr_record_of_loc (Zpos p) loc_Exact)) with (Zpos p) in Hm'.
  rewrite Z.max_l in Hm', He' by lia.
  set (m1 := round_nearest_even (shr_m mrs') (loc_of_shr_record mrs')).
  pose proof (round_nearest_even_ge (shr_m mrs') (loc_of_shr_record mrs')) as Hm1.
  fold m1 in Hm1.
  (* the truncated mantissa *)
  assert (Hlow : (n1 = ex - ez /\ Zpos mx <= shr_m mrs') \/
                 (ex - ez < n1 /\ 2 ^ 52 <= shr_m mrs')).
  { destruct (Z.eq_dec n1 (ex - ez)) as [Heq|Hne].
    - left. split; [exact Heq|]. rewrite Hm', Heq.
      apply Z.div_le_lower_bound; lia.
    - right. split; [lia|].
      assert (Hn1' : n1 = d - 53) by (unfold n1 in *; lia).
      rewrite Hm', Hn1'. apply Z.div_le_lower_bound; [apply Z.pow_pos_nonneg; lia|].
      rewrite <- Z.pow_add_r by lia.
      replace (d - 53 + 52) with (d - 1) by lia. lia. }
  assert (Hm1pos : 0 < m1) by (destruct Hlow as [[_ H]|[_ H]]; lia).
  destruct m1 as [|q|q] eqn:Hq; try lia.
  pose proof (digits2_bounds q) as Hdq.
  change (Zdigits2 (Zpos q)) with (Zpos (digits2_pos q)).
  set (dq := Zpos (digits2_pos q)) in *.
  rewrite fexp_eq.
  set (n2 := Z.max (dq + e' - 53) (-1074) - e').
  destruct (shr (shr_record_of_loc (Zpos q) loc_Exact) e' n2) as [mrs'' e''] eqn:Hshr2.
  pose proof (shr_m_spec (shr_record_of_loc (Zpos q) loc_Exact) e' n2) as [Hm'' He''];
    [simpl; lia|].
  rewrite Hshr2 in Hm'', He''. simpl fst in Hm''; simpl snd in He''.
  change (shr_m (shr_record_of_loc (Zpos q) loc_Exact)) with (Zpos q) in Hm''.
  assert (He'min : -1074 <= e') by lia.
  destruct (Z_le_gt_dec n2 0) as [Hn2|Hn2].
  - rewrite Z.max_r in Hm'', He'' by lia.
    rewrite Z.pow_0_r, Z.div_1_r in Hm''. rewrite Hm''.
    destruct (e'' <=? emax - prec); simpl; [|exact I].
    destruct Hlow as [[H1 H2]|[H1 H2]]; [right | left]; lia.
  - rewrite Z.max_l in Hm'', He'' by lia.
    assert (Hn2' : n2 = dq - 53) by (unfold n2 in *; lia).
    assert (Hpos : 2 ^ 52 <= shr_m mrs'').
    { rewrite Hm'', Hn2'. apply Z.div_le_lower_bound; [apply Z.pow_pos_nonneg; lia|].
      rewrite <- Z.pow_add_r by lia.
      replace (dq - 53 + 52) with (dq - 1) by lia. lia. }
    destruct (shr_m mrs'') as [|r|r]; try (simpl in Hpos; lia).
    destruct (e'' <=? emax - prec); simpl; [|exact I].
    left. lia.
Qed.

Lemma binary_round_above (mx : positive) (ex : Z) (p : positive) (ez : Z) :
  canonical_mantissa prec emax mx ex = true ->
  ez <= ex ->
  Zpos mx * 2 ^ (ex - ez) <= Zpos p ->
  above mx ex (binary_round prec emax false p ez).
Proof.
  intros Hcan Hez Hle.
  pose proof Hcan as Hcan'.
  unfold canonical_mantissa in Hcan'. apply Z.eqb_eq in Hcan'.
  rewrite fexp_eq in Hcan'.
  pose proof (digits2_bounds mx) as Hdx.
  pose proof (digits2_bounds p) as Hdp.
  assert (Hpow : 0 < 2 ^ (ex - ez)) by (apply Z.pow_pos_nonneg; lia).
  assert (Hd : Zpos (digits2_pos mx) + ex <= Zpos (digits2_pos p) + ez).
  { destruct (Z_lt_le_dec (Zpos (digits2_pos p) + ez)
                          (Zpos (digits2_pos mx) + ex)) as [Hlt|]; [|assumption].
    exfalso.
    assert (H1 : 2 ^ Zpos (digits2_pos p) <=
                 2 ^ (Zpos (digits2_pos mx) - 1 + (ex - ez)))
      by (apply Z.pow_le_mono_r; lia).
    rewrite Z.pow_add_r in H1 by lia.
    nia. }
  unfold binary_round, shl_align. rewrite fexp_eq.
  destruct (Z.max (Zpos (digits2_pos p) + ez - 53) (-1074) - ez) eqn:Hsub;
    try lia; now apply binary_round_aux_above.
Qed.

Lemma nonneg_leb (x : spec_float) : SFleb (S754_zero false) x = nonneg x.
Proof. destruct x as [s|[|]| |[|] m e]; reflexivity. Qed.

Lemma shl_align_fst (mx : positive) (ex ez : Z) :
  ez <= ex -> Zpos (fst (shl_align mx ex ez)) = Zpos mx * 2 ^ (ex - ez).
Proof.
  intros H. unfold shl_align.
  destruct (ez - ex) as [|d|d] eqn:Hd; simpl fst.
  - replace (ex - ez) with 0 by lia. simpl. lia.
  - lia.
  - rewrite iter_xO_pow. f_equal. f_equal. lia.
Qed.

Lemma above_leb (mx : positive) (ex : Z) (r : spec_float) :
  above mx ex r -> SFleb (S754_finite false mx ex) r = true /\ nonneg r = true.
Proof.
  destruct r as [s|[|]| |[|] mr er]; simpl; try tauto.
  intros [Hlt|[Heq Hle]]; unfold SFleb; simpl.
  - apply Z.compare_lt_iff in Hlt. now rewrite Hlt.
  - subst er. rewrite Z.compare_refl.
    rewrite Pos.compare_cont_spec; simpl.
    apply Pos.compare_le_iff in Hle.
    destruct (mx ?= mr)%positive; try (exfalso; now apply Hle); auto.
Qed.

Lemma SFleb_refl_nonneg (x : spec_float) : nonneg x = true -> SFleb x x = true.
Proof.
  destruct x as [s|[|]| |[|] m e]; simpl; try discriminate; intros _; try reflexivity.
  unfold SFleb; simpl. rewrite Z.compare_refl, Pos.compare_cont_refl. reflexivity.
Qed.

(** Adding a non-negative number to a non-negative number never lowers it. *)
Lemma SFadd_nonneg (x v : spec_float) :
  valid_binary x = true -> nonneg x = true -> nonneg v = true ->
  SFleb x (SF64add x v) = true /\ nonneg (SF64add x v) = true.
Proof.
  intros Hvalid Hx Hv. unfold SF64add.
  destruct x as [sx|[|]| |[|] mx ex]; try discriminate Hx;
    destruct v as [sv|[|]| |[|] mv ev]; try discriminate Hv;
    try (destruct sx); try (destruct sv); simpl SFadd;
    try (split; reflexivity);
    try (split; [apply SFleb_refl_nonneg|]; reflexivity).
  unfold binary_normalize. simpl cond_Zopp.
  simpl in Hvalid. apply andb_true_iff in Hvalid as [Hcan _].
  assert (Hmin : Z.min ex ev <= ex) by lia.
  pose proof (shl_align_fst mx ex (Z.min ex ev) Hmin) as Hsx.
  apply above_leb.
  change (Zpos (fst (shl_align mx ex (Z.min ex ev))) +
          Zpos (fst (shl_align mv ev (Z.min ex ev))))
    with (Zpos (fst (shl_align mx ex (Z.min ex ev)) +
                fst (shl_align mv ev (Z.min ex ev)))).
  apply binary_round_above; [exact Hcan | exact Hmin |].
  rewrite Pos2Z.inj_add, Hsx. lia.
Qed.

Lemma SFleb_trans_nonneg (x y z : spec_float) :
  nonneg x = true -> nonneg y = true -> nonneg z = true ->
  SFleb x y = true -> SFleb y z = true -> SFleb x z = true.
Proof.
  destruct x as [sx|[|]| |[|] mx ex]; try discriminate;
    destruct y as [sy|[|]| |[|] my ey]; try discriminate;
    destruct z as [sz|[|]| |[|] mz ez]; try discriminate;
    intros _ _ _; unfold SFleb; simpl; try reflexivity; try discriminate.
  rewrite !Pos.compare_cont_spec; simpl.
  destruct (Z.compare_spec ex ey), (Z.compare_spec ey ez); try discriminate;
    subst; intros Hxy Hyz.
  - rewrite Z.compare_refl.
    destruct (Pos.compare_spec mx my), (Pos.compare_spec my mz);
      try discriminate; subst.
    + now rewrite Pos.compare_refl.
    + apply Pos.compare_lt_iff in H0. now rewrite H0.
    + apply Pos.compare_lt_iff in H. now rewrite H.
    + assert (H1 : (mx < mz)%positive) by lia.
      apply Pos.compare_lt_iff in H1. now rewrite H1.
  - apply Z.compare_lt_iff in H0. now rewrite H0.
  - apply Z.compare_lt_iff in H. now rewrite H.
  - assert (H1 : ex < ez) by lia. apply Z.compare_lt_iff in H1. now rewrite H1.
Qed.

(** The same on the numbers of the host. *)
Lemma add_nonneg_le (x v : float) :
  (0 <=? x)%float = true -> (0 <=? v)%float = true ->
  (x <=? x + v)%float = true /\ (0 <=? x + v)%float = true.
Proof.
  rewrite !leb_spec, add_spec.
  change (Prim2SF 0) with (S754_zero false). rewrite !nonneg_leb.
  intros Hx Hv. apply SFadd_nonneg; auto. apply Prim2SF_valid.
Qed.

Lemma leb_trans_nonneg (x y z : float) :
  (0 <=? x)%float = true -> (0 <=? y)%float = true -> (0 <=? z)%float = true ->
  (x <=? y)%float = true -> (y <=? z)%float = true -> (x <=? z)%float = true.
Proof.
  rewrite !leb_spec. change (Prim2SF 0) with (S754_zero false).
  rewrite !nonneg_leb. apply SFleb_trans_nonneg.
Qed.

Lemma leb_refl_nonneg (x : float) :
  (0 <=? x)%float = true -> (x <=? x)%float = true.
Proof.
  rewrite !leb_spec. change (Prim2SF 0) with (S754_zero false).
  rewrite nonneg_leb. apply SFleb_refl_nonneg.
Qed.

(** ** The accumulator is a non-negative number that only grows *)

Lemma unflaggedSum_grows (entries : list LayoutShiftEntry) (total : float) :
  (0 <=? total)%float = true ->
  (forall e, In e entries -> hadRecentInput e = false ->
             (0 <=? value e)%float = true) ->
  (total <=? unflaggedSum total entries)%float = true /\
  (0 <=? unflaggedSum total entries)%float = true.
Proof.
  revert total; induction entries as [|e rest IH]; intros total Htotal H.
  - split; [now apply leb_refl_nonneg | exact Htotal].
  - rewrite unflaggedSum_cons.
    assert (Hrest : forall x, In x rest -> hadRecentInput x = false ->
                              (0 <=? value x)%float = true)
      by (intros x Hx; apply H; now right).
    destruct (hadRecentInput e) eqn:He; [now apply IH|].
    destruct (add_nonneg_le total (value e) Htotal) as [Hle Hpos];
      [apply H; [now left | exact He]|].
    destruct (IH _ Hpos Hrest) as [Hle' Hpos'].
    split; [|exact Hpos'].
    now apply (leb_trans_nonneg total (total + value e)%float).
Qed.

Lemma totalAfter_grows (evs : list (Host * Event)) (p : Phase) (total : float) :
  (0 <=? total)%float = true ->
  (forall e, In e (shiftsDelivered evs) -> hadRecentInput e = false ->
             (0 <=? value e)%float = true) ->
  (total <=? totalAfter p evs total)%float = true /\
  (0 <=? totalAfter p evs total)%float = true.
Proof.
  revert p total; induction evs as [|[h ev] rest IH]; intros p total Htotal H.
  - split; [now apply leb_refl_nonneg | exact Htotal].
  - simpl totalAfter.
    assert (Hstep : (total <=? totalOf p ev total)%float = true /\
                    (0 <=? totalOf p ev total)%float = true).
    { destruct ev; simpl totalOf;
        try (split; [now apply leb_refl_nonneg | exact Htotal]).
      destruct p as [|[|]];
        try (split; [now apply leb_refl_nonneg | exact Htotal]).
      apply unflaggedSum_grows; [exact Htotal|].
      intros e He. apply H. simpl. apply in_or_app; now left. }
    destruct Hstep as [Hle Hpos].
    destruct (IH (next_phase p h ev) _ Hpos) as [Hle' Hpos'].
    { intros e He. apply H. destruct ev; simpl; try exact He.
      apply in_or_app; now right. }
    split; [|exact Hpos'].
    now apply (leb_trans_nonneg total (totalOf p ev total)).
Qed.

Lemma reports_app (l1 l2 : list Effect) :
  reports (l1 ++ l2) = reports l1 ++ reports l2.
Proof.
  induction l1 as [|[|c u d] l1 IH]; simpl; auto. now rewrite IH.
Qed.

Lemma basicTimingCalls_app (l1 l2 : list Effect) :
  basicTimingCalls (l1 ++ l2) = (basicTimingCalls l1 + basicTimingCalls l2)%nat.
Proof. unfold basicTimingCalls. now rewrite filter_app, length_app. Qed.

Lemma after_log (p : Phase) (h : Host) (ev : Event) (m : Monitor) :
  log (after p h ev m) = log m ++ effectsOf p h m ev.
Proof. destruct p, ev; reflexivity. Qed.

Lemma after_started (po : bool) (h : Host) (ev : Event) (m : Monitor) :
  started po m -> started po (after (Monitoring po) h ev m).
Proof. intros H. apply (after_phase (Monitoring po) h ev m H). Qed.

(** * The claims *)

(** ** Timing snapshot reader *)

(** C1.  For every navigation timing snapshot, [getBasicTiming] returns the
    eight metrics, each the stated difference of two marks: dns, tcp, ttfb,
    domParse, resources, domReady, interactive and load.  A snapshot whose
    marks are all equal gives eight zeros.  With domainLookupStart = 100 and
    domainLookupEnd = 112 the result has dns = 12, and that value is what
    the load handler hands to [report]. *)
Theorem basic_timing_differences :
  (forall (h : Host) (m : Monitor),
     fst (getBasicTiming h m) =
     {| dns := domainLookupEnd (timing h) - domainLookupStart (timing h);
        tcp := connectEnd (timing h) - connectStart (timing h);
        ttfb := responseStart (timing h) - requestStart (timing h);
        domParse := domComplete (timing h) - domInteractive (timing h);
        resources := loadEventStart (timing h) - domContentLoadedEventEnd (timing h);
        domReady := domContentLoadedEventEnd (timing h) - navigationStart (timing h);
        interactive := domInteractive (timing h) - navigationStart (timing h);
        load := loadEventEnd (timing h) - navigationStart (timing h) |}) /\
  (forall x : Z,
     basicTimingOf
       {| navigationStart := x; domainLookupStart := x; domainLookupEnd := x;
          connectStart := x; connectEnd := x; requestStart := x;
          responseStart := x; domInteractive := x;
          domContentLoadedEventEnd := x; domComplete := x;
          loadEventStart := x; loadEventEnd := x |} =
     {| dns := 0; tcp := 0; ttfb := 0; domParse := 0; resources := 0;
        domReady := 0; interactive := 0; load := 0 |}) /\
  (forall (ns cs ce rq rs di dcl dc ls le : Z) (href : string) (t : Z)
          (po : bool) (sup : StreamKind -> bool) (sb : bool) (m : Monitor),
     let h := {| timing :=
                   {| navigationStart := ns; domainLookupStart := 100;
                      domainLookupEnd := 112; connectStart := cs;
                      connectEnd := ce; requestStart := rq;
                      responseStart := rs; domInteractive := di;
                      domContentLoadedEventEnd := dcl; domComplete := dc;
                      loadEventStart := ls; loadEventEnd := le |};
                 location_href := href; now := t;
                 hasPerformanceObserver := po; supportedEntryTypes := sup;
                 hasSendBeacon := sb |} in
     dns (fst (getBasicTiming h m)) = 12 /\
     exists d,
       reports (log (exec (reportPerformance h) m)) =
         reports (log m) ++ [PerformanceReport d] /\
       dns (basic d) = 12).
Proof.
  split; [|split].
  - intros h m. reflexivity.
  - intros x. unfold basicTimingOf; simpl. now rewrite !Z.sub_diag.
  - intros. split; [reflexivity|].
    exists (spread (basicTimingOf (timing h))). split; [|reflexivity].
    unfold exec. rewrite reportPerformance_eq. simpl snd.
    unfold extend; simpl log. now rewrite reports_app.
Qed.

(** ** Layout-instability accumulator *)

(** C2.  Over the whole life of a monitor, from its construction on, the
    accumulator never decreases when the unflagged values delivered are not
    negative (and so not NaN); only a layout-shift delivery changes it; a
    delivery whose entries are all flagged leaves it as it was; on a started
    monitor it is the total it was with the unflagged values delivered
    added to it one after the other, as [+=] adds binary64 numbers.  The
    three entries 0.05, 0.10 (flagged) and 0.03 end in a reported cls of
    0.08, delivered as one batch or one by one. *)
Theorem cls_accumulator_monotone :
  (forall (url : string) (evs1 evs2 : list (Host * Event)),
     (forall e, In e (shiftsDelivered (evs1 ++ evs2)) ->
                hadRecentInput e = false ->
                (0 <=? value e)%float = true) ->
     (clsValue (run evs1 (constructor url)) <=?
      clsValue (run (evs1 ++ evs2) (constructor url)))%float = true) /\
  (forall (url : string) (evs : list (Host * Event)) (h : Host) (ev : Event),
     (forall entries, ev <> LayoutShiftDelivery entries) ->
     clsValue (exec (step h ev) (run evs (constructor url))) =
     clsValue (run evs (constructor url))) /\
  (forall (url : string) (evs : list (Host * Event)) (h : Host)
          (entries : list LayoutShiftEntry),
     forallb hadRecentInput entries = true ->
     clsValue (exec (step h (LayoutShiftDelivery entries)) (run evs (constructor url))) =
     clsValue (run evs (constructor url))) /\
  (forall (m : Monitor) (evs : list (Host * Event)),
     started true m ->
     clsValue (run evs m) =
     fold_left PrimFloat.add
       (map value (filter (fun e => negb (hadRecentInput e)) (shiftsDelivered evs)))
       (clsValue m)) /\
  (forall (url : string) (h0 h1 h2 h3 : Host),
     hasPerformanceObserver h0 = true ->
     map (fun d => match d with
                   | PerformanceReport p => cls p
                   | ErrorReport _ => None
                   end)
         (reports (log (run [(h0, CallInit);
                             (h1, LayoutShiftDelivery
                                    [ {| value := 0.05%float; hadRecentInput := false |};
                                      {| value := 0.10%float; hadRecentInput := true |};
                                      {| value := 0.03%float; hadRecentInput := false |} ])]
                            (constructor url)))) =
       [Some 0.08%float] /\
     map (fun d => match d with
                   | PerformanceReport p => cls p
                   | ErrorReport _ => None
                   end)
         (reports (log (run [(h0, CallInit);
                             (h1, LayoutShiftDelivery
                                    [ {| value := 0.05%float; hadRecentInput := false |} ]);
                             (h2, LayoutShiftDelivery
                                    [ {| value := 0.10%float; hadRecentInput := true |} ]);
                             (h3, LayoutShiftDelivery
                                    [ {| value := 0.03%float; hadRecentInput := false |} ])]
                            (constructor url)))) =
       [Some 0.05%float; Some 0.05%float; Some 0.08%float]) /\
  accumulateBinary64 0%float
    [(0.05%float, false); (0.10%float, true); (0.03%float, false)] = 0.08%float.
Proof.
  split; [|split; [|split; [|split; [|split]]]]; [| | | | |vm_compute; reflexivity].
  - intros url evs1 evs2 H.
    rewrite run_app.
    pose proof (run_phase evs1 Uninitialized (constructor url)
                  (constructor_unstarted url)) as Hp.
    rewrite (run_clsValue evs2 _ _ Hp).
    rewrite (run_clsValue evs1 Uninitialized (constructor url)
               (constructor_unstarted url)).
    assert (Hsplit : shiftsDelivered (evs1 ++ evs2) =
                     shiftsDelivered evs1 ++ shiftsDelivered evs2).
    { clear. induction evs1 as [|[h ev] rest IH]; simpl; [reflexivity|].
      destruct ev; simpl; rewrite ?IH, ?app_assoc; reflexivity. }
    rewrite Hsplit in H.
    destruct (totalAfter_grows evs1 Uninitialized (clsValue (constructor url)))
      as [_ Hpos]; [reflexivity | intros e He; apply H, in_or_app; now left |].
    apply totalAfter_grows; [exact Hpos|].
    intros e He. apply H, in_or_app. now right.
  - intros url evs h ev Hev.
    pose proof (run_phase evs Uninitialized (constructor url)
                  (constructor_unstarted url)) as Hp.
    rewrite (exec_step _ h ev _ Hp), after_clsValue.
    destruct ev; simpl; try reflexivity.
    exfalso. now apply (Hev entries).
  - intros url evs h entries Hflag.
    pose proof (run_phase evs Uninitialized (constructor url)
                  (constructor_unstarted url)) as Hp.
    rewrite (exec_step _ h _ _ Hp), after_clsValue.
    destruct (phase_after Uninitialized evs) as [|[|]]; simpl;
      rewrite ?(unflaggedSum_flagged _ entries Hflag); reflexivity.
  - intros m evs Hm.
    rewrite (run_clsValue evs (Monitoring true) m Hm).
    now rewrite totalAfter_started.
  - intros url h0 h1 h2 h3 Hpo.
    assert (Hs : started true (exec (step h0 CallInit) (constructor url)))
      by (rewrite <- Hpo; apply init_started).
    split.
    + cbn [run].
      rewrite (exec_step (Monitoring true) h1 _ _ Hs).
      rewrite after_log, reports_app.
      unfold exec; simpl step; rewrite init_first by reflexivity.
      reflexivity.
    + cbn [run].
      rewrite (exec_step (Monitoring true) h1 _ _ Hs).
      pose proof (after_started true h1
        (LayoutShiftDelivery [ {| value := 0.05%float; hadRecentInput := false |} ])
        _ Hs) as Hs1.
      rewrite (exec_step (Monitoring true) h2 _ _ Hs1).
      pose proof (after_started true h2
        (LayoutShiftDelivery [ {| value := 0.10%float; hadRecentInput := true |} ])
        _ Hs1) as Hs2.
      rewrite (exec_step (Monitoring true) h3 _ _ Hs2).
      rewrite !after_log, !reports_app.
      unfold exec; simpl step; rewrite init_first by reflexivity.
      reflexivity.
Qed.

(** The hypotheses of C2 hold on the example host and entries. *)
Lemma cls_accumulator_monotone_witness :
  (clsValue (run [(Examples.host0, CallInit)]
                 (constructor "https://collector.example/r")) <=?
   clsValue (run ([(Examples.host0, CallInit)] ++
                  [(Examples.host0, LayoutShiftDelivery Examples.shifts)])
                 (constructor "https://collector.example/r")))%float = true /\
  clsValue (exec (step Examples.host0 Load)
                 (run [(Examples.host0, CallInit)]
                      (constructor "https://collector.example/r"))) =
  clsValue (run [(Examples.host0, CallInit)]
                (constructor "https://collector.example/r")) /\
  clsValue (exec (step Examples.host0
                    (LayoutShiftDelivery
                       [ {| value := 0.10%float; hadRecentInput := true |} ]))
                 (run [(Examples.host0, CallInit)]
                      (constructor "https://collector.example/r"))) =
  clsValue (run [(Examples.host0, CallInit)]
                (constructor "https://collector.example/r")) /\
  started true Examples.monitor0 /\
  clsValue (run [(Examples.host0, LayoutShiftDelivery Examples.shifts)]
                Examples.monitor0) =
  fold_left PrimFloat.add
    (map value
       (filter (fun e => negb (hadRecentInput e))
          (shiftsDelivered [(Examples.host0, LayoutShiftDelivery Examples.shifts)])))
    (clsValue Examples.monitor0).
Proof.
  destruct cls_accumulator_monotone as (Hmono & Hother & Hflag & Hsum & _ & _).
  split; [|split; [|split; [|split]]].
  - apply Hmono. intros e He _. simpl in He.
    repeat (destruct He as [<-|He]; [reflexivity|]).
    destruct He.
  - apply Hother. intros entries; discriminate.
  - apply Hflag. reflexivity.
  - unfold started; repeat split; reflexivity.
  - apply Hsum. unfold started; repeat split; reflexivity.
Defined.

(** ** When the timing snapshot is computed *)

Lemma timedReports_calls {A} (h : Host) (url : string)
    (f : A -> BasicTiming -> ReportData) (xs : list A) :
  basicTimingCalls (timedReports h url f xs) = List.length xs.
Proof.
  induction xs as [|x xs IH]; [reflexivity|].
  unfold timedReports, basicTimingCalls in *; simpl.
  now rewrite IH.
Qed.

Lemma effectsOf_calls (p : Phase) (h : Host) (m : Monitor) (ev : Event) :
  basicTimingCalls (effectsOf p h m ev) = timingCallsOf p ev.
Proof.
  destruct p as [|[|]], ev; try reflexivity.
  - unfold effectsOf, errorEffects.
    now destruct (isResourceElement (ev_target event)).
  - unfold effectsOf, paintEffects.
    now rewrite basicTimingCalls_app, !timedReports_calls.
  - unfold effectsOf, lcpEffects, timingCallsOf.
    destruct entries as [|e rest]; [reflexivity|].
    destruct (rev (e :: rest)) eqn:Hrev; [|reflexivity].
    apply (f_equal (@List.length _)) in Hrev.
    rewrite length_rev in Hrev. discriminate.
  - unfold effectsOf, errorEffects.
    now destruct (isResourceElement (ev_target event)).
Qed.

(** C3, as the code has it.  The load handler computes the timing snapshot
    once for each load signal and never on its own before one; but every
    observer report computes it again: once per first-paint and per
    first-contentful-paint entry, once per non-empty largest-content
    delivery, once per layout-shift delivery, whenever the platform delivers
    them.  Nothing else computes it: no call to [init] or [report], no error
    event, no empty largest-content delivery, and nothing before [init]. *)
Theorem timing_snapshot_calls :
  forall (p : Phase) (m : Monitor) (h : Host) (ev : Event),
    in_phase p m ->
    basicTimingCalls (log (exec (step h ev) m)) =
    (basicTimingCalls (log m) +
     match p, ev with
     | Monitoring _, Load => 1
     | Monitoring true, PaintDelivery entries =>
         List.length (getEntriesByName "first-paint" entries) +
         List.length (getEntriesByName "first-contentful-paint" entries)
     | Monitoring true, LargestContentfulPaintDelivery [] => 0
     | Monitoring true, LargestContentfulPaintDelivery (_ :: _) => 1
     | Monitoring true, LayoutShiftDelivery _ => 1
     | _, _ => 0
     end)%nat.
Proof.
  intros p m h ev Hp.
  rewrite (exec_step p h ev m Hp), after_log, basicTimingCalls_app.
  f_equal. apply effectsOf_calls.
Qed.

(** A started monitor computes the snapshot once for one layout-shift
    delivery. *)
Lemma timing_snapshot_calls_witness :
  in_phase (Monitoring true) Examples.monitor0 /\
  basicTimingCalls
    (log (exec (step Examples.host0 (LayoutShiftDelivery Examples.shifts))
               Examples.monitor0)) = 1%nat.
Proof.
  assert (H : in_phase (Monitoring true) Examples.monitor0)
    by (simpl; unfold started; repeat split; reflexivity).
  split; [exact H|].
  rewrite (timing_snapshot_calls (Monitoring true) Examples.monitor0
             Examples.host0 (LayoutShiftDelivery Examples.shifts) H).
  reflexivity.
Defined.

(** C3 as stated fails: in the execution that calls [init] and then
    receives one (empty) layout-shift delivery, the snapshot is computed
    although no load signal has fired. *)
Lemma timing_snapshot_not_once_after_load :
  ~ (forall (url : string) (evs : list (Host * Event)),
       (basicTimingCalls (log (run evs (constructor url))) <= 1)%nat /\
       ((1 <= basicTimingCalls (log (run evs (constructor url))))%nat ->
        exists h, In (h, Load) evs)).
Proof.
  intros H.
  destruct (H "https://collector.example/r"%string
              [(Examples.host0, CallInit);
               (Examples.host0, LayoutShiftDelivery [])]) as [_ Hload].
  destruct Hload as [h Hin].
  - vm_compute. apply le_n.
  - simpl in Hin. destruct Hin as [Heq|[Heq|[]]]; discriminate.
Qed.

(** ** Largest-content stream *)

Lemma num_or_nonzero (a b : Qc) : a <> Q2Qc 0 -> JS.num_or a b = a.
Proof. intros H. unfold JS.num_or. now destruct (Qc_eq_dec a (Q2Qc 0)). Qed.

Lemma num_or_zero (b : Qc) : JS.num_or (Q2Qc 0) b = b.
Proof. unfold JS.num_or. now destruct (Qc_eq_dec (Q2Qc 0) (Q2Qc 0)). Qed.

(** C4.  On a started monitor every delivery of the largest-content stream
    that ends with the entry [lastEntry] reports once, and the reported lcp
    is the rounded render time of [lastEntry] when that is not zero and its
    rounded load time otherwise; the entries before the last one play no
    part, so of two entries only the second counts. *)
Theorem lcp_from_last_entry :
  forall (m : Monitor) (h : Host)
         (pre : list LargestContentfulPaintEntry)
         (lastEntry : LargestContentfulPaintEntry),
    started true m ->
    (exists d,
       log (exec (step h (LargestContentfulPaintDelivery (pre ++ [lastEntry]))) m) =
         log m ++ [CallGetBasicTiming;
                   Transmit (channel h) (reportUrl m) (PerformanceReport d)] /\
       basic d = basicTimingOf (timing h) /\
       (renderTime lastEntry <> Q2Qc 0 ->
        lcp d = Some (JS.round (renderTime lastEntry))) /\
       (renderTime lastEntry = Q2Qc 0 ->
        lcp d = Some (JS.round (loadTime lastEntry))) /\
       fp d = None /\ fcp d = None /\ fid d = None /\ cls d = None) /\
    (forall first other : LargestContentfulPaintEntry,
       exec (step h (LargestContentfulPaintDelivery [first; lastEntry])) m =
       exec (step h (LargestContentfulPaintDelivery [other; lastEntry])) m).
Proof.
  intros m h pre lastEntry Hm. split.
  - exists (with_lcp (JS.round (JS.num_or (renderTime lastEntry) (loadTime lastEntry)))
                     (spread (basicTimingOf (timing h)))).
    split; [|split; [|split; [|split]]].
    + rewrite (exec_step (Monitoring true) h _ m Hm), after_log.
      simpl effectsOf. unfold lcpEffects. now rewrite rev_app_distr.
    + reflexivity.
    + intros Hr. simpl. now rewrite num_or_nonzero.
    + intros Hr. simpl. now rewrite Hr, num_or_zero.
    + simpl; auto.
  - intros first other.
    now rewrite !(exec_step (Monitoring true) h _ m Hm).
Qed.

(** Two deliveries of two entries each: 1234.5 rounds to 1235, and a
    withheld render time falls back to the load time 1099.6, reported as
    1100. *)
Lemma lcp_from_last_entry_witness :
  started true Examples.monitor0 /\
  renderTime Examples.lcp2 <> Q2Qc 0 /\
  renderTime Examples.lcpCrossOrigin = Q2Qc 0 /\
  (exists d,
     log (exec (step Examples.host0
                  (LargestContentfulPaintDelivery [Examples.lcp1; Examples.lcp2]))
               Examples.monitor0) =
       [CallGetBasicTiming;
        Transmit Beacon "https://collector.example/r" (PerformanceReport d)] /\
     lcp d = Some 1235) /\
  (exists d,
     log (exec (step Examples.host0
                  (LargestContentfulPaintDelivery [Examples.lcp1; Examples.lcpCrossOrigin]))
               Examples.monitor0) =
       [CallGetBasicTiming;
        Transmit Beacon "https://collector.example/r" (PerformanceReport d)] /\
     lcp d = Some 1100).
Proof.
  assert (Hs : started true Examples.monitor0)
    by (unfold started; repeat split; reflexivity).
  assert (Hr : renderTime Examples.lcp2 <> Q2Qc 0) by (intros H; discriminate H).
  assert (Hz : renderTime Examples.lcpCrossOrigin = Q2Qc 0) by reflexivity.
  split; [exact Hs|]. split; [exact Hr|]. split; [exact Hz|]. split.
  - destruct (lcp_from_last_entry Examples.monitor0 Examples.host0
                [Examples.lcp1] Examples.lcp2 Hs)
      as [(d & Hlog & _ & Hrender & _) _].
    exists d. split; [exact Hlog|]. now rewrite (Hrender Hr).
  - destruct (lcp_from_last_entry Examples.monitor0 Examples.host0
                [Examples.lcp1] Examples.lcpCrossOrigin Hs)
      as [(d & Hlog & _ & _ & Hload & _) _].
    exists d. split; [exact Hlog|]. now rewrite (Hload Hz).
Defined.

(** C10.  An empty delivery of the largest-content stream changes nothing
    at all, whatever state the monitor is in: no report, no call, no field.
    A delivery with at least one entry makes a started monitor report
    exactly once. *)
Theorem lcp_empty_delivery :
  (forall (h : Host) (m : Monitor),
     exec (step h (LargestContentfulPaintDelivery [])) m = m) /\
  (forall (h : Host) (m : Monitor) (e : LargestContentfulPaintEntry)
          (rest : list LargestContentfulPaintEntry),
     started true m ->
     exists d,
       reports (log (exec (step h (LargestContentfulPaintDelivery (e :: rest))) m)) =
       reports (log m) ++ [PerformanceReport d]).
Proof.
  split.
  - intros h m. unfold exec, step. rewrite deliver_eq.
    induction (observersOf LargestContentfulPaint m) as [|s subs IH];
      [reflexivity|].
    simpl for_of. rewrite bind_eq. exact IH.
  - intros h m e rest Hm.
    rewrite (exec_step (Monitoring true) h _ m Hm), after_log, reports_app.
    simpl effectsOf. unfold lcpEffects.
    destruct (rev (e :: rest)) as [|lastEntry before] eqn:Hrev.
    + apply (f_equal (@List.length _)) in Hrev.
      rewrite length_rev in Hrev. discriminate.
    + eexists. reflexivity.
Qed.

(** One entry, one report. *)
Lemma lcp_empty_delivery_witness :
  started true Examples.monitor0 /\
  exists d,
    reports (log (exec (step Examples.host0
                          (LargestContentfulPaintDelivery [Examples.lcp1]))
                       Examples.monitor0)) =
    reports (log Examples.monitor0) ++ [PerformanceReport d].
Proof.
  assert (Hs : started true Examples.monitor0)
    by (unfold started; repeat split; reflexivity).
  split; [exact Hs|].
  destruct lcp_empty_delivery as [_ H].
  exact (H Examples.host0 Examples.monitor0 Examples.lcp1 [] Hs).
Defined.

(** ** Layout-shift reports *)

(** C8.  On a started monitor every layout-shift delivery ends with exactly
    one report, and that report carries the accumulator as it is after the
    batch; when the batch is empty or all its entries are flagged, this is
    the value the accumulator had before. *)
Theorem cls_always_reported :
  forall (m : Monitor) (h : Host) (entries : list LayoutShiftEntry),
    started true m ->
    log (exec (step h (LayoutShiftDelivery entries)) m) =
      log m ++
      [CallGetBasicTiming;
       Transmit (channel h) (reportUrl m)
         (PerformanceReport
            {| basic := basicTimingOf (timing h);
               fp := None; fcp := None; lcp := None; fid := None;
               cls := Some (clsValue (exec (step h (LayoutShiftDelivery entries)) m)) |})] /\
    (forallb hadRecentInput entries = true ->
     clsValue (exec (step h (LayoutShiftDelivery entries)) m) = clsValue m) /\
    log (exec (step h (LayoutShiftDelivery [])) m) =
      log m ++
      [CallGetBasicTiming;
       Transmit (channel h) (reportUrl m)
         (PerformanceReport
            {| basic := basicTimingOf (timing h);
               fp := None; fcp := None; lcp := None; fid := None;
               cls := Some (clsValue m) |})].
Proof.
  intros m h entries Hm.
  rewrite !(exec_step (Monitoring true) h _ m Hm), !after_log, !after_clsValue.
  split; [reflexivity|]. split.
  - intros Hflag. simpl totalOf.
    now rewrite (unflaggedSum_flagged _ entries Hflag).
  - reflexivity.
Qed.

(** A batch with one flagged entry leaves the total as it was. *)
Lemma cls_always_reported_witness :
  started true Examples.monitor0 /\
  forallb hadRecentInput
    [ {| value := 0.10%float; hadRecentInput := true |} ] = true /\
  clsValue (exec (step Examples.host0
                    (LayoutShiftDelivery
                       [ {| value := 0.10%float; hadRecentInput := true |} ]))
                 Examples.monitor0) =
  clsValue Examples.monitor0.
Proof.
  assert (Hs : started true Examples.monitor0)
    by (unfold started; repeat split; reflexivity).
  split; [exact Hs|]. split; [reflexivity|].
  apply (cls_always_reported Examples.monitor0 Examples.host0 _ Hs).
  reflexivity.
Defined.

(** ** Error capture *)

Lemma isResourceElement_tag (tag : string) (s r : JS.str) :
  isResourceElement (Some (TargetElement tag s r)) = true <->
  tag = "LINK"%string \/ tag = "SCRIPT"%string \/ tag = "IMG"%string.
Proof.
  simpl. rewrite !orb_true_iff, !String.eqb_eq. tauto.
Qed.

(** C5.  On a started monitor an ['error'] event whose target is a LINK,
    SCRIPT or IMG element is reported twice, first by the script listener
    with kind [js] and then by the resource listener with kind [resource];
    any other ['error'] event is reported once with kind [js]; an unhandled
    rejection is reported once with kind [promise].  Nothing else is added
    to the log. *)
Theorem error_records_per_event :
  forall (po : bool) (m : Monitor) (h : Host),
    started po m ->
    (forall (event : ErrorEvent) (tag : string) (s r : JS.str),
       ev_target event = Some (TargetElement tag s r) ->
       tag = "LINK"%string \/ tag = "SCRIPT"%string \/ tag = "IMG"%string ->
       log (exec (step h (Error event)) m) =
         log m ++
         [Transmit (channel h) (reportUrl m) (ErrorReport (jsErrorData h event));
          Transmit (channel h) (reportUrl m)
            (ErrorReport (resourceErrorData h (ev_target event)))] /\
       kind (jsErrorData h event) = js /\
       kind (resourceErrorData h (ev_target event)) = resource) /\
    (forall event : ErrorEvent,
       isResourceElement (ev_target event) = false ->
       log (exec (step h (Error event)) m) =
         log m ++
         [Transmit (channel h) (reportUrl m) (ErrorReport (jsErrorData h event))] /\
       kind (jsErrorData h event) = js) /\
    (forall event : PromiseRejectionEvent,
       log (exec (step h (UnhandledRejection event)) m) =
         log m ++
         [Transmit (channel h) (reportUrl m) (ErrorReport (promiseErrorData h event))] /\
       kind (promiseErrorData h event) = promise).
Proof.
  intros po m h Hm. split; [|split].
  - intros event tag s r Htarget Htag.
    rewrite (exec_step (Monitoring po) h _ m Hm), after_log.
    simpl effectsOf. unfold errorEffects.
    assert (Hres : isResourceElement (ev_target event) = true)
      by (rewrite Htarget; now apply isResourceElement_tag).
    rewrite Hres. repeat split.
  - intros event Hres.
    rewrite (exec_step (Monitoring po) h _ m Hm), after_log.
    simpl effectsOf. unfold errorEffects. rewrite Hres. repeat split.
  - intros event.
    rewrite (exec_step (Monitoring po) h _ m Hm), after_log.
    repeat split.
Qed.

(** A failing image is recorded twice, a script error once. *)
Lemma error_records_per_event_witness :
  started true Examples.monitor0 /\
  map (fun d => match d with
                | ErrorReport e => Some (kind e)
                | PerformanceReport _ => None
                end)
      (reports (log (exec (step Examples.host0 (Error Examples.brokenImage))
                          Examples.monitor0))) = [Some js; Some resource] /\
  map (fun d => match d with
                | ErrorReport e => Some (kind e)
                | PerformanceReport _ => None
                end)
      (reports (log (exec (step Examples.host0 (Error Examples.scriptError))
                          Examples.monitor0))) = [Some js].
Proof.
  assert (Hs : started true Examples.monitor0)
    by (unfold started; repeat split; reflexivity).
  destruct (error_records_per_event true Examples.monitor0 Examples.host0 Hs)
    as (Hboth & Hone & _).
  split; [exact Hs|]. split.
  - destruct (Hboth Examples.brokenImage "IMG"%string (Some EmptyString) None)
      as (Hlog & _); [reflexivity | right; right; reflexivity |].
    rewrite Hlog. reflexivity.
  - destruct (Hone Examples.scriptError) as (Hlog & _); [reflexivity|].
    rewrite Hlog. reflexivity.
Defined.

(** C7, as the code has it.  A script error without a file name (unset or
    empty) is filed under the page URL, and an unset line or column becomes
    0; a promise rejection is always filed under the page URL with line and
    column 0; a resource error has line and column 0 and is filed under the
    URL of the element, its [src] or else its [href], and under the empty
    string when the element has neither. *)
Theorem error_location_defaults :
  forall (h : Host) (event : ErrorEvent) (rejection : PromiseRejectionEvent),
    (ev_filename event = None \/ ev_filename event = Some EmptyString ->
     filename (jsErrorData h event) = location_href h) /\
    (ev_lineno event = None -> lineno (jsErrorData h event) = 0) /\
    (ev_colno event = None -> colno (jsErrorData h event) = 0) /\
    filename (promiseErrorData h rejection) = location_href h /\
    lineno (promiseErrorData h rejection) = 0 /\
    colno (promiseErrorData h rejection) = 0 /\
    lineno (resourceErrorData h (ev_target event)) = 0 /\
    colno (resourceErrorData h (ev_target event)) = 0 /\
    (forall url : string,
       JS.str_or (target_src (ev_target event)) (target_href (ev_target event)) =
         Some url ->
       filename (resourceErrorData h (ev_target event)) = url) /\
    (JS.str_or (target_src (ev_target event)) (target_href (ev_target event)) = None ->
     filename (resourceErrorData h (ev_target event)) = EmptyString).
Proof.
  intros h event rejection. repeat split.
  - intros [H|H]; simpl; now rewrite H.
  - intros H; simpl; now rewrite H.
  - intros H; simpl; now rewrite H.
  - intros url H. simpl. rewrite H. simpl.
    destruct (String.eqb url EmptyString) eqn:E; [|reflexivity].
    apply String.eqb_eq in E. now subst.
  - intros H. simpl. now rewrite H.
Qed.

(** The defaults on a script error without location, a failing stylesheet
    and a failing image without URL. *)
Lemma error_location_defaults_witness :
  (ev_filename Examples.scriptError = None \/
   ev_filename Examples.scriptError = Some EmptyString) /\
  ev_lineno Examples.scriptError = None /\
  ev_colno Examples.scriptError = None /\
  filename (jsErrorData Examples.host0 Examples.scriptError) =
    "https://site.example/page"%string /\
  lineno (jsErrorData Examples.host0 Examples.scriptError) = 0 /\
  colno (jsErrorData Examples.host0 Examples.scriptError) = 0 /\
  JS.str_or (target_src (ev_target Examples.brokenStylesheet))
            (target_href (ev_target Examples.brokenStylesheet)) =
    Some "https://cdn.example/site.css"%string /\
  filename (resourceErrorData Examples.host0 (ev_target Examples.brokenStylesheet)) =
    "https://cdn.example/site.css"%string /\
  JS.str_or (target_src (ev_target Examples.brokenImage))
            (target_href (ev_target Examples.brokenImage)) = None /\
  filename (resourceErrorData Examples.host0 (ev_target Examples.brokenImage)) =
    EmptyString.
Proof.
  destruct (error_location_defaults Examples.host0 Examples.scriptError
              {| ev_reason := None |})
    as (Hfile & Hline & Hcol & _).
  destruct (error_location_defaults Examples.host0 Examples.brokenStylesheet
              {| ev_reason := None |})
    as (_ & _ & _ & _ & _ & _ & _ & _ & Hurl & _).
  destruct (error_location_defaults Examples.host0 Examples.brokenImage
              {| ev_reason := None |})
    as (_ & _ & _ & _ & _ & _ & _ & _ & _ & Hnone).
  split; [left; reflexivity|].
  split; [reflexivity|]. split; [reflexivity|].
  split; [apply Hfile; left; reflexivity|].
  split; [apply Hline; reflexivity|].
  split; [apply Hcol; reflexivity|].
  split; [reflexivity|].
  split; [apply Hurl; reflexivity|].
  split; [reflexivity|].
  apply Hnone; reflexivity.
Defined.

(** C7 as stated fails for resource errors: an image without a known URL
    that fails to load is recorded with the empty string as file name, not
    with the page URL. *)
Lemma resource_error_filename_not_page_url :
  reports (log (exec (step Examples.host0 (Error Examples.brokenImage))
                     Examples.monitor0)) =
    [ErrorReport (jsErrorData Examples.host0 Examples.brokenImage);
     ErrorReport (resourceErrorData Examples.host0
                    (ev_target Examples.brokenImage))] /\
  kind (resourceErrorData Examples.host0 (ev_target Examples.brokenImage)) =
    resource /\
  JS.str_or (target_src (ev_target Examples.brokenImage))
            (target_href (ev_target Examples.brokenImage)) = None /\
  filename (resourceErrorData Examples.host0 (ev_target Examples.brokenImage)) =
    EmptyString /\
  filename (resourceErrorData Examples.host0 (ev_target Examples.brokenImage)) <>
    location_href Examples.host0.
Proof.
  repeat split. intros H; discriminate H.
Qed.

(** ** The facade *)

(** C9.  The first [init] on a fresh monitor turns monitoring on and
    registers each observer (on a host with [PerformanceObserver]), the two
    error listeners, the rejection listener and the load listener exactly
    once, and sends nothing.  From then on, whatever happens in between,
    every further [init] returns the monitor unchanged. *)
Theorem init_idempotent :
  forall (m : Monitor) (h : Host),
    unstarted m ->
    isMonitoring (exec (init h) m) = true /\
    map sub_type (observers (exec (init h) m)) =
      (if hasPerformanceObserver h
       then [Paint; LargestContentfulPaint; LayoutShift] else []) /\
    errorListeners (exec (init h) m) = [JsErrorListener; ResourceErrorListener] /\
    rejectionListeners (exec (init h) m) = 1%nat /\
    loadListeners (exec (init h) m) = 1%nat /\
    log (exec (init h) m) = log m /\
    clsValue (exec (init h) m) = clsValue m /\
    reportUrl (exec (init h) m) = reportUrl m /\
    (forall h' : Host, exec (init h') (exec (init h) m) = exec (init h) m) /\
    (forall (evs : list (Host * Event)) (h' : Host),
       exec (init h') (run evs (exec (init h) m)) = run evs (exec (init h) m)).
Proof.
  intros m h (Hm & Hobs & Herr & Hrej & Hload).
  unfold exec at 1 2 3 4 5 6 7 8. rewrite (init_first h m Hm). simpl.
  rewrite Hobs, Herr, Hrej, Hload. simpl.
  assert (Hstarted : started (hasPerformanceObserver h) (exec (init h) m)).
  { unfold exec. rewrite (init_first h m Hm). unfold started; simpl.
    rewrite Hobs, Herr, Hrej, Hload. auto. }
  repeat split.
  - now destruct (hasPerformanceObserver h).
  - intros h'. unfold exec at 1. rewrite init_again; [reflexivity|].
    apply Hstarted.
  - intros evs h'. unfold exec at 1. rewrite init_again; [reflexivity|].
    apply (run_started _ evs _ Hstarted).
Qed.

(** A second [init] on a fresh monitor changes nothing. *)
Lemma init_idempotent_witness :
  unstarted (constructor "https://collector.example/r") /\
  exec (init Examples.host0)
       (exec (init Examples.host0) (constructor "https://collector.example/r")) =
  exec (init Examples.host0) (constructor "https://collector.example/r").
Proof.
  assert (Hu : unstarted (constructor "https://collector.example/r"))
    by (unfold unstarted; repeat split; reflexivity).
  split; [exact Hu|].
  apply (init_idempotent (constructor "https://collector.example/r")
           Examples.host0 Hu).
Defined.

(** C6, as the code has it.  [init] tests for [PerformanceObserver] once,
    for the three streams together.  Without it none of the three
    subscriptions is requested, while the error listeners, the rejection
    listener and the load listener are installed all the same; with it all
    three are requested, each with [buffered] set, whatever entry types the
    host says it supports. *)
Theorem observers_share_one_guard :
  forall (url : string) (h : Host),
    observers (exec (init h) (constructor url)) =
      (if hasPerformanceObserver h
       then [ {| sub_type := Paint; sub_buffered := true |};
              {| sub_type := LargestContentfulPaint; sub_buffered := true |};
              {| sub_type := LayoutShift; sub_buffered := true |} ]
       else []) /\
    errorListeners (exec (init h) (constructor url)) =
      [JsErrorListener; ResourceErrorListener] /\
    rejectionListeners (exec (init h) (constructor url)) = 1%nat /\
    loadListeners (exec (init h) (constructor url)) = 1%nat /\
    log (exec (init h) (constructor url)) = [].
Proof.
  intros url h. unfold exec. rewrite init_first by reflexivity.
  simpl. unfold registrations. repeat split.
Qed.

(** C6 as stated fails: on a host that has [PerformanceObserver] but does
    not support layout-shift entries, the monitor does not skip that
    subscription; it requests all three. *)
Lemma layout_shift_subscription_not_skipped :
  ~ (forall (url : string) (h : Host) (k : StreamKind),
       In k (map sub_type (observers (exec (init h) (constructor url)))) <->
       hasPerformanceObserver h && supportedEntryTypes h k = true).
Proof.
  intros H.
  destruct (H "https://collector.example/r"%string
              Examples.hostNoLayoutShift LayoutShift) as [Hskip _].
  assert (Hin : In LayoutShift
                  (map sub_type
                     (observers (exec (init Examples.hostNoLayoutShift)
                                      (constructor "https://collector.example/r")))))
    by (simpl; auto).
  specialize (Hskip Hin). discriminate Hskip.
Qed.

(** * Further properties of the code *)

(** ** The reporter *)

Lemma after_reportUrl (p : Phase) (h : Host) (ev : Event) (m : Monitor) :
  reportUrl (after p h ev m) = reportUrl m.
Proof. destruct p, ev; reflexivity. Qed.

Lemma run_reportUrl (evs : list (Host * Event)) (p : Phase) (m : Monitor) :
  in_phase p m -> reportUrl (run evs m) = reportUrl m.
Proof.
  revert p m; induction evs as [|[h ev] rest IH]; intros p m Hp; simpl.
  - reflexivity.
  - rewrite (exec_step p h ev m Hp).
    rewrite (IH (next_phase p h ev)) by now apply after_phase.
    apply after_reportUrl.
Qed.

Lemma timedReports_Forall {A} (P : Effect -> Prop) (h : Host) (url : string)
    (f : A -> BasicTiming -> ReportData) (xs : list A) :
  P CallGetBasicTiming ->
  (forall x, In x xs ->
     P (Transmit (channel h) url (f x (basicTimingOf (timing h))))) ->
  Forall P (timedReports h url f xs).
Proof.
  intros Hcall Hsend. induction xs as [|x xs IH]; simpl.
  - constructor.
  - constructor; [exact Hcall|]. constructor; [apply Hsend; now left|].
    apply IH. intros y Hy. apply Hsend. now right.
Qed.

Lemma effectsOf_sentFrom (p : Phase) (h : Host) (m : Monitor) (ev : Event) :
  Forall (sentFrom h (reportUrl m)) (effectsOf p h m ev).
Proof.
  assert (Hsend : forall d, sentFrom h (reportUrl m)
                              (Transmit (channel h) (reportUrl m) d))
    by (intros d; split; reflexivity).
  destruct p as [|[|]], ev; simpl effectsOf;
    repeat (constructor; try exact I; try apply Hsend).
  - unfold errorEffects.
    destruct (isResourceElement (ev_target event));
      repeat (constructor; try apply Hsend).
  - unfold paintEffects. apply Forall_app; split;
      apply timedReports_Forall; try exact I; intros; apply Hsend.
  - unfold lcpEffects. destruct (rev entries);
      repeat (constructor; try exact I; try apply Hsend).
  - unfold errorEffects.
    destruct (isResourceElement (ev_target event));
      repeat (constructor; try apply Hsend).
Qed.

(** X1.  In every execution, from the construction of the monitor on, what
    one event adds to the log is sent to the URL given to the constructor,
    by [sendBeacon] when the host has it at that moment and by
    [XMLHttpRequest] otherwise; the URL itself never changes. *)
Theorem transmissions_addressed :
  forall (url : string) (evs : list (Host * Event)) (h : Host) (ev : Event),
    reportUrl (run evs (constructor url)) = url /\
    exists new,
      log (exec (step h ev) (run evs (constructor url))) =
        log (run evs (constructor url)) ++ new /\
      Forall (fun e => match e with
                       | CallGetBasicTiming => True
                       | Transmit c u _ =>
                           c = (if hasSendBeacon h then Beacon else Xhr) /\ u = url
                       end) new.
Proof.
  intros url evs h ev.
  pose proof (run_phase evs Uninitialized (constructor url)
                (constructor_unstarted url)) as Hp.
  pose proof (run_reportUrl evs Uninitialized (constructor url)
                (constructor_unstarted url)) as Hurl.
  simpl reportUrl in Hurl. split; [exact Hurl|].
  exists (effectsOf (phase_after Uninitialized evs) h (run evs (constructor url)) ev).
  split.
  - now rewrite (exec_step _ h ev _ Hp), after_log.
  - pose proof (effectsOf_sentFrom (phase_after Uninitialized evs) h
                  (run evs (constructor url)) ev) as H.
    rewrite Hurl in H. exact H.
Qed.

(** ** The paint observer *)

Lemma reports_timedReports {A} (h : Host) (url : string)
    (f : A -> BasicTiming -> ReportData) (xs : list A) :
  reports (timedReports h url f xs) =
  map (fun x => f x (basicTimingOf (timing h))) xs.
Proof.
  induction xs as [|x xs IH]; simpl; [reflexivity|]. now rewrite IH.
Qed.

Lemma getEntriesByName_none (n : string) (entries : list PaintEntry) :
  (forall e, In e entries -> name e <> n) -> getEntriesByName n entries = [].
Proof.
  intros H. induction entries as [|e rest IH]; simpl; [reflexivity|].
  destruct (String.eqb (name e) n) eqn:E.
  - apply String.eqb_eq in E. exfalso. apply (H e); [now left | exact E].
  - apply IH. intros x Hx. apply H. now right.
Qed.

(** X2.  On a started monitor a paint delivery is reported entry by entry:
    one report with only [fp] set for each entry named first-paint, in the
    order of the batch, and after all of those one report with only [fcp]
    set for each entry named first-contentful-paint, wherever these stood
    in the batch.  A batch without entries of these two names changes
    nothing. *)
Theorem paint_reports :
  forall (m : Monitor) (h : Host) (entries : list PaintEntry),
    started true m ->
    reports (log (exec (step h (PaintDelivery entries)) m)) =
      reports (log m) ++
      map (fun entry =>
             PerformanceReport
               {| basic := basicTimingOf (timing h);
                  fp := Some (JS.round (startTime entry)); fcp := None;
                  lcp := None; fid := None; cls := None |})
          (filter (fun e => String.eqb (name e) "first-paint") entries) ++
      map (fun entry =>
             PerformanceReport
               {| basic := basicTimingOf (timing h);
                  fp := None; fcp := Some (JS.round (startTime entry));
                  lcp := None; fid := None; cls := None |})
          (filter (fun e => String.eqb (name e) "first-contentful-paint") entries) /\
    ((forall e, In e entries ->
        name e <> "first-paint"%string /\
        name e <> "first-contentful-paint"%string) ->
     exec (step h (PaintDelivery entries)) m = m).
Proof.
  intros m h entries Hm.
  rewrite (exec_step (Monitoring true) h _ m Hm). split.
  - rewrite after_log, reports_app. f_equal.
    simpl effectsOf. unfold paintEffects.
    now rewrite reports_app, !reports_timedReports.
  - intros Hnames. unfold after. simpl effectsOf; simpl totalOf.
    unfold paintEffects.
    rewrite !getEntriesByName_none by (intros e He; now apply Hnames).
    simpl. now tidy.
Qed.

(** A batch with the contentful paint first: [fp] is still reported first. *)
Lemma paint_reports_witness :
  started true Examples.monitor0 /\
  map (fun d => match d with
                | PerformanceReport p => (fp p, fcp p)
                | ErrorReport _ => (None, None)
                end)
      (reports (log (exec (step Examples.host0
                             (PaintDelivery
                                [ {| name := "first-contentful-paint";
                                     startTime := Q2Qc (3204 # 10) |};
                                  {| name := "first-paint";
                                     startTime := Q2Qc (3005 # 10) |} ]))
                          Examples.monitor0))) =
    [(Some 301, None); (None, Some 320)] /\
  exec (step Examples.host0
          (PaintDelivery [ {| name := "mark"; startTime := Q2Qc 1 |} ]))
       Examples.monitor0 = Examples.monitor0.
Proof.
  assert (Hs : started true Examples.monitor0)
    by (unfold started; repeat split; reflexivity).
  split; [exact Hs|]. split.
  - rewrite (proj1 (paint_reports Examples.monitor0 Examples.host0 _ Hs)).
    reflexivity.
  - apply (paint_reports Examples.monitor0 Examples.host0 _ Hs).
    intros e [<-|[]]. split; discriminate.
Defined.

(** ** What the monitor sends on its own *)

Ltac own_reports :=
  repeat match goal with
  | |- Forall _ [] => constructor
  | |- Forall _ (_ :: _) => constructor
  | |- ownReport CallGetBasicTiming => exact I
  | |- ownReport (Transmit _ _ (ErrorReport _)) => exact I
  | |- ownReport (Transmit _ _ (PerformanceReport _)) =>
      split; [reflexivity | unfold optionalFields; simpl; lia]
  end.

Lemma effectsOf_ownReport (p : Phase) (h : Host) (m : Monitor) (ev : Event) :
  isCallReport ev = false -> Forall ownReport (effectsOf p h m ev).
Proof.
  intros Hev.
  destruct p as [|[|]], ev; try discriminate Hev; simpl effectsOf;
    unfold errorEffects, lcpEffects, paintEffects;
    try match goal with
        | |- context [isResourceElement ?t] => destruct (isResourceElement t)
        | |- context [rev ?l] => destruct (rev l)
        end;
    own_reports.
  apply Forall_app; split; apply timedReports_Forall; try exact I;
    intros; own_reports.
Qed.

Lemma run_ownReport (evs : list (Host * Event)) (p : Phase) (m : Monitor) :
  in_phase p m ->
  forallb (fun x => negb (isCallReport (snd x))) evs = true ->
  Forall ownReport (log m) ->
  Forall ownReport (log (run evs m)).
Proof.
  revert p m; induction evs as [|[h ev] rest IH]; intros p m Hp Hevs Hlog; simpl.
  - exact Hlog.
  - simpl in Hevs. apply andb_true_iff in Hevs as [Hev Hrest].
    apply negb_true_iff in Hev.
    rewrite (exec_step p h ev m Hp).
    apply (IH (next_phase p h ev)); [now apply after_phase | exact Hrest |].
    rewrite after_log. apply Forall_app; split; [exact Hlog|].
    now apply effectsOf_ownReport.
Qed.

(** X3.  As long as the page does not call [report] itself, every
    performance report the monitor sends leaves [fid] unset and sets at most
    one of the optional fields [fp], [fcp], [lcp] and [cls]: the values of
    different streams are never combined in one report. *)
Theorem own_reports_one_optional_field :
  forall (url : string) (evs : list (Host * Event)),
    forallb (fun x => negb (isCallReport (snd x))) evs = true ->
    Forall (fun e => match e with
                     | Transmit _ _ (PerformanceReport d) =>
                         fid d = None /\
                         (isSet (fp d) + isSet (fcp d) + isSet (lcp d) +
                          isSet (fid d) + isSet (cls d) <= 1)%nat
                     | _ => True
                     end)
           (log (run evs (constructor url))).
Proof.
  intros url evs Hevs.
  apply (run_ownReport evs Uninitialized (constructor url)
           (constructor_unstarted url) Hevs).
  constructor.
Qed.

(** An execution with a load signal and deliveries of all three streams. *)
Lemma own_reports_one_optional_field_witness :
  List.length
    (reports (log (run [(Examples.host0, CallInit);
                        (Examples.host0,
                         PaintDelivery [ {| name := "first-paint";
                                            startTime := Q2Qc (3005 # 10) |} ]);
                        (Examples.host0,
                         LargestContentfulPaintDelivery [Examples.lcp1]);
                        (Examples.host0, LayoutShiftDelivery Examples.shifts);
                        (Examples.host0, Load)]
                       (constructor "https://collector.example/r")))) = 4%nat /\
  Forall (fun e => match e with
                   | Transmit _ _ (PerformanceReport d) =>
                       fid d = None /\
                       (isSet (fp d) + isSet (fcp d) + isSet (lcp d) +
                        isSet (fid d) + isSet (cls d) <= 1)%nat
                   | _ => True
                   end)
         (log (run [(Examples.host0, CallInit);
                    (Examples.host0,
                     PaintDelivery [ {| name := "first-paint";
                                        startTime := Q2Qc (3005 # 10) |} ]);
                    (Examples.host0,
                     LargestContentfulPaintDelivery [Examples.lcp1]);
                    (Examples.host0, LayoutShiftDelivery Examples.shifts);
                    (Examples.host0, Load)]
                   (constructor "https://collector.example/r"))).
Proof.
  split; [reflexivity|].
  apply own_reports_one_optional_field. reflexivity.
Defined.

(** ** The records of error capture *)

(** X4.  The record of an unhandled rejection always has a message that is
    neither unset nor empty: the message of the reason when it has a
    non-empty one, and the fixed text otherwise (no reason, a reason
    without message, an empty message).  Its stack is the stack of the
    reason, whatever the message of the reason is, and unset when there is
    no reason. *)
Theorem rejection_message_never_empty :
  forall (h : Host) (event : PromiseRejectionEvent),
    (exists text,
       message (promiseErrorData h event) = Some text /\ text <> EmptyString) /\
    (forall (reason : Thrown) (text : string),
       ev_reason event = Some reason ->
       thrown_message reason = Some text ->
       text <> EmptyString ->
       message (promiseErrorData h event) = Some text /\
       stack (promiseErrorData h event) = thrown_stack reason) /\
    (ev_reason event = None ->
     message (promiseErrorData h event) = Some "Unhandled promise rejection"%string /\
     stack (promiseErrorData h event) = None) /\
    (forall reason : Thrown,
       ev_reason event = Some reason ->
       thrown_message reason = None \/ thrown_message reason = Some EmptyString ->
       message (promiseErrorData h event) = Some "Unhandled promise rejection"%string /\
       stack (promiseErrorData h event) = thrown_stack reason) /\
    stack (promiseErrorData h event) =
      match ev_reason event with
      | Some reason => thrown_stack reason
      | None => None
      end /\
    filename (promiseErrorData h event) = location_href h /\
    kind (promiseErrorData h event) = promise /\
    timestamp (promiseErrorData h event) = now h.
Proof.
  intros h [reason]. simpl. split; [|split; [|split; [|split]]].
  - destruct reason as [[[text|] stk]|]; simpl.
    + destruct (String.eqb text EmptyString) eqn:E.
      * eexists; split; [reflexivity | discriminate].
      * exists text; split; [reflexivity|]. now apply String.eqb_neq.
    + eexists; split; [reflexivity | discriminate].
    + eexists; split; [reflexivity | discriminate].
  - intros r text Hr Hmsg Hne. inversion Hr; subst. rewrite Hmsg. simpl.
    apply String.eqb_neq in Hne. rewrite Hne. now split.
  - intros Hr. rewrite Hr. now split.
  - intros r Hr [Hmsg|Hmsg]; inversion Hr; subst; rewrite Hmsg; now split.
  - repeat split.
Qed.

(** A rejection with a reason, one whose reason has an empty message but a
    stack, one without reason. *)
Lemma rejection_message_never_empty_witness :
  message (promiseErrorData Examples.host0
             {| ev_reason := Some {| thrown_message := Some "timeout"%string;
                                     thrown_stack := Some "at fetchUser"%string |} |}) =
    Some "timeout"%string /\
  stack (promiseErrorData Examples.host0
           {| ev_reason := Some {| thrown_message := Some "timeout"%string;
                                   thrown_stack := Some "at fetchUser"%string |} |}) =
    Some "at fetchUser"%string /\
  message (promiseErrorData Examples.host0
             {| ev_reason := Some {| thrown_message := Some EmptyString;
                                     thrown_stack := Some "at load"%string |} |}) =
    Some "Unhandled promise rejection"%string /\
  stack (promiseErrorData Examples.host0
           {| ev_reason := Some {| thrown_message := Some EmptyString;
                                   thrown_stack := Some "at load"%string |} |}) =
    Some "at load"%string /\
  message (promiseErrorData Examples.host0 {| ev_reason := None |}) =
    Some "Unhandled promise rejection"%string.
Proof.
  split; [|split; [|split; [|split]]].
  - apply (proj1 (proj2 (rejection_message_never_empty Examples.host0 _))
             {| thrown_message := Some "timeout"%string;
                thrown_stack := Some "at fetchUser"%string |} "timeout"%string);
      [reflexivity | reflexivity | discriminate].
  - apply (proj1 (proj2 (rejection_message_never_empty Examples.host0 _))
             {| thrown_message := Some "timeout"%string;
                thrown_stack := Some "at fetchUser"%string |} "timeout"%string);
      [reflexivity | reflexivity | discriminate].
  - apply (proj1 (proj2 (proj2 (proj2 (rejection_message_never_empty Examples.host0 _))))
             {| thrown_message := Some EmptyString;
                thrown_stack := Some "at load"%string |});
      [reflexivity | right; reflexivity].
  - apply (proj1 (proj2 (proj2 (proj2 (rejection_message_never_empty Examples.host0 _))))
             {| thrown_message := Some EmptyString;
                thrown_stack := Some "at load"%string |});
      [reflexivity | right; reflexivity].
  - apply (proj1 (proj2 (proj2 (rejection_message_never_empty Examples.host0 _)))).
    reflexivity.
Defined.

(** X5.  The record of a failed resource names the URL of the element in
    its message and carries the same URL as file name: the [src] of the
    element when it is set and not empty, whatever its [href], and else its
    [href].  When the element has neither, the two disagree: the message
    ends in the word undefined (or in nothing, for an empty [href]) while
    the file name is the empty string. *)
Theorem resource_error_message :
  forall (h : Host) (tag : string) (s r : JS.str),
    (forall url : string,
       s = Some url -> url <> EmptyString ->
       message (resourceErrorData h (Some (TargetElement tag s r))) =
         Some ("Resource load error: " ++ url)%string /\
       filename (resourceErrorData h (Some (TargetElement tag s r))) = url) /\
    (forall url : string,
       s = None \/ s = Some EmptyString ->
       r = Some url -> url <> EmptyString ->
       message (resourceErrorData h (Some (TargetElement tag s r))) =
         Some ("Resource load error: " ++ url)%string /\
       filename (resourceErrorData h (Some (TargetElement tag s r))) = url) /\
    (s = None \/ s = Some EmptyString ->
     r = None ->
     message (resourceErrorData h (Some (TargetElement tag s r))) =
       Some "Resource load error: undefined"%string /\
     filename (resourceErrorData h (Some (TargetElement tag s r))) = EmptyString) /\
    (s = None \/ s = Some EmptyString ->
     r = Some EmptyString ->
     message (resourceErrorData h (Some (TargetElement tag s r))) =
       Some "Resource load error: "%string /\
     filename (resourceErrorData h (Some (TargetElement tag s r))) = EmptyString).
Proof.
  intros h tag s r. unfold resourceErrorData; simpl message; simpl filename.
  simpl target_src; simpl target_href.
  split; [|split; [|split]].
  - intros url Hs Hne. subst s. apply String.eqb_neq in Hne.
    unfold JS.str_or, JS.str_or_default, JS.interpolate. rewrite Hne.
    rewrite Hne. now split.
  - intros url Hs Hr Hne. subst r. apply String.eqb_neq in Hne.
    unfold JS.str_or, JS.str_or_default, JS.interpolate.
    destruct Hs as [-> | ->]; simpl; rewrite Hne; now split.
  - intros Hs Hr. subst r. destruct Hs as [-> | ->]; now split.
  - intros Hs Hr. subst r. destruct Hs as [-> | ->]; now split.
Qed.

(** An image with a URL, a stylesheet with only an [href], an inline script
    element. *)
Lemma resource_error_message_witness :
  message (resourceErrorData Examples.host0
             (Some (TargetElement "IMG" (Some "https://cdn.x/a.png"%string)
                                  (Some "https://cdn.x/other"%string)))) =
    Some "Resource load error: https://cdn.x/a.png"%string /\
  filename (resourceErrorData Examples.host0
              (Some (TargetElement "LINK" None
                                   (Some "https://cdn.x/site.css"%string)))) =
    "https://cdn.x/site.css"%string /\
  message (resourceErrorData Examples.host0
             (Some (TargetElement "SCRIPT" (Some EmptyString) None))) =
    Some "Resource load error: undefined"%string /\
  message (resourceErrorData Examples.host0
             (Some (TargetElement "LINK" None (Some EmptyString)))) =
    Some "Resource load error: "%string.
Proof.
  split; [|split; [|split]].
  - apply (proj1 (resource_error_message Examples.host0 "IMG"
                    (Some "https://cdn.x/a.png"%string)
                    (Some "https://cdn.x/other"%string))
             "https://cdn.x/a.png"%string); [reflexivity | discriminate].
  - apply (proj1 (proj2 (resource_error_message Examples.host0 "LINK" None
                           (Some "https://cdn.x/site.css"%string)))
             "https://cdn.x/site.css"%string);
      [left; reflexivity | reflexivity | discriminate].
  - apply (proj1 (proj2 (proj2 (resource_error_message Examples.host0 "SCRIPT"
                                  (Some EmptyString) None))));
      [right; reflexivity | reflexivity].
  - apply (proj2 (proj2 (proj2 (resource_error_message Examples.host0 "LINK"
                                  None (Some EmptyString)))));
      [left; reflexivity | reflexivity].
Defined.

(** X6.  The record of a script error passes on what the event knows: the
    message as it is, a non-empty file name, and any line and column
    number, so that the default 0 never replaces a known number. *)
Theorem script_error_fields_kept :
  forall (h : Host) (event : ErrorEvent),
    message (jsErrorData h event) = ev_message event /\
    timestamp (jsErrorData h event) = now h /\
    (forall file : string,
       ev_filename event = Some file -> file <> EmptyString ->
       filename (jsErrorData h event) = file) /\
    (forall n : Z, ev_lineno event = Some n -> lineno (jsErrorData h event) = n) /\
    (forall n : Z, ev_colno event = Some n -> colno (jsErrorData h event) = n) /\
    (forall e : Thrown,
       ev_error event = Some e -> stack (jsErrorData h event) = thrown_stack e) /\
    (ev_error event = None -> stack (jsErrorData h event) = None).
Proof.
  intros h event. simpl. repeat split.
  - intros file Hf Hne. rewrite Hf. simpl.
    apply String.eqb_neq in Hne. now rewrite Hne.
  - intros n Hn. rewrite Hn. simpl. destruct (Z.eqb_spec n 0); congruence.
  - intros n Hn. rewrite Hn. simpl. destruct (Z.eqb_spec n 0); congruence.
  - intros e He. now rewrite He.
  - intros He. now rewrite He.
Qed.

(** A script error at line 0 and column 17 of a known file. *)
Lemma script_error_fields_kept_witness :
  filename (jsErrorData Examples.host0 Examples.locatedScriptError) =
    "https://site.example/app.js"%string /\
  lineno (jsErrorData Examples.host0 Examples.locatedScriptError) = 0 /\
  colno (jsErrorData Examples.host0 Examples.locatedScriptError) = 17 /\
  stack (jsErrorData Examples.host0 Examples.locatedScriptError) =
    Some "at main"%string.
Proof.
  destruct (script_error_fields_kept Examples.host0 Examples.locatedScriptError)
    as (_ & _ & Hfile & Hline & Hcol & Hstack & _).
  split; [|split; [|split]].
  - apply Hfile; [reflexivity | discriminate].
  - apply Hline. reflexivity.
  - apply Hcol. reflexivity.
  - apply (Hstack {| thrown_message := Some "x is not defined"%string;
                     thrown_stack := Some "at main"%string |}).
    reflexivity.
Defined.

(** ** The facade over an execution *)

Lemma after_unstarted_idle (h : Host) (ev : Event) (m : Monitor) :
  isCallInit ev = false -> isCallReport ev = false ->
  after Uninitialized h ev m = m.
Proof.
  intros Hi Hr. unfold after.
  destruct ev; try discriminate Hi; try discriminate Hr; simpl; now tidy.
Qed.

(** X7.  Until [init] is called nothing is observed: on a monitor that has
    not been started, a load signal, an error, a rejection or a delivery
    leaves the monitor exactly as it was and sends nothing, however many of
    them arrive.  What happens before [init] is not reported later either,
    since the monitor is unchanged. *)
Theorem nothing_observed_before_init :
  forall (m : Monitor) (evs : list (Host * Event)),
    unstarted m ->
    forallb (fun x => negb (isCallInit (snd x)) && negb (isCallReport (snd x)))
            evs = true ->
    run evs m = m.
Proof.
  intros m evs Hm. induction evs as [|[h ev] rest IH]; intros Hevs; simpl.
  - reflexivity.
  - simpl in Hevs. apply andb_true_iff in Hevs as [Hev Hrest].
    apply andb_true_iff in Hev as [Hi Hr].
    apply negb_true_iff in Hi. apply negb_true_iff in Hr.
    rewrite (exec_step Uninitialized h ev m Hm).
    rewrite (after_unstarted_idle h ev m Hi Hr). now apply IH.
Qed.

(** Events that arrive before [init]. *)
Lemma nothing_observed_before_init_witness :
  unstarted (constructor "https://collector.example/r") /\
  run [(Examples.host0, Error Examples.scriptError);
       (Examples.host0, LayoutShiftDelivery Examples.shifts);
       (Examples.host0, Load)]
      (constructor "https://collector.example/r") =
  constructor "https://collector.example/r".
Proof.
  assert (Hu : unstarted (constructor "https://collector.example/r"))
    by (unfold unstarted; repeat split; reflexivity).
  split; [exact Hu|].
  apply (nothing_observed_before_init _ _ Hu). reflexivity.
Defined.

(** X8.  A monitor started on a host without [PerformanceObserver] ignores
    every delivery of the three streams, also when the capability appears
    later; the load signal is still reported, once, without optional
    fields. *)
Theorem without_observer_support :
  forall (m : Monitor) (h : Host),
    started false m ->
    (forall entries, exec (step h (PaintDelivery entries)) m = m) /\
    (forall entries, exec (step h (LargestContentfulPaintDelivery entries)) m = m) /\
    (forall entries, exec (step h (LayoutShiftDelivery entries)) m = m) /\
    log (exec (step h Load) m) =
      log m ++
      [CallGetBasicTiming;
       Transmit (channel h) (reportUrl m)
         (PerformanceReport
            {| basic := basicTimingOf (timing h);
               fp := None; fcp := None; lcp := None; fid := None; cls := None |})].
Proof.
  intros m h Hm.
  repeat split; try intros entries;
    rewrite (exec_step (Monitoring false) h _ m Hm); unfold after; simpl;
    now tidy.
Qed.

(** The example monitor started on a host without the capability. *)
Lemma without_observer_support_witness :
  started false
    (exec (init {| timing := Examples.timing0;
                   location_href := "https://site.example/page";
                   now := 1700000000000; hasPerformanceObserver := false;
                   supportedEntryTypes := fun _ => false;
                   hasSendBeacon := false |})
          (constructor "https://collector.example/r")) /\
  exec (step Examples.host0 (LayoutShiftDelivery Examples.shifts))
       (exec (init {| timing := Examples.timing0;
                      location_href := "https://site.example/page";
                      now := 1700000000000; hasPerformanceObserver := false;
                      supportedEntryTypes := fun _ => false;
                      hasSendBeacon := false |})
             (constructor "https://collector.example/r")) =
  exec (init {| timing := Examples.timing0;
                location_href := "https://site.example/page";
                now := 1700000000000; hasPerformanceObserver := false;
                supportedEntryTypes := fun _ => false;
                hasSendBeacon := false |})
       (constructor "https://collector.example/r").
Proof.
  assert (Hs : started false
                 (exec (init {| timing := Examples.timing0;
                                location_href := "https://site.example/page";
                                now := 1700000000000;
                                hasPerformanceObserver := false;
                                supportedEntryTypes := fun _ => false;
                                hasSendBeacon := false |})
                       (constructor "https://collector.example/r")))
    by (unfold started; repeat split; reflexivity).
  split; [exact Hs|].
  apply (without_observer_support _ Examples.host0 Hs).
Defined.

Lemma run_log_grows (evs : list (Host * Event)) (p : Phase) (m : Monitor) :
  in_phase p m -> exists new, log (run evs m) = log m ++ new.
Proof.
  revert p m; induction evs as [|[h ev] rest IH]; intros p m Hp; simpl.
  - exists []. now rewrite app_nil_r.
  - rewrite (exec_step p h ev m Hp).
    destruct (IH (next_phase p h ev) (after p h ev m)) as [new Hnew];
      [now apply after_phase|].
    rewrite Hnew, after_log, <- app_assoc. eexists; reflexivity.
Qed.

(** X9.  Once started, a monitor stays started: whatever events follow,
    further calls of [init] included, it keeps monitoring with the same
    observers, the same two error listeners, one rejection listener and one
    load listener, and the same report URL; nothing is ever unregistered or
    registered twice, and what was sent stays in the log. *)
Theorem registrations_stable :
  forall (po : bool) (m : Monitor) (evs : list (Host * Event)),
    started po m ->
    isMonitoring (run evs m) = true /\
    observers (run evs m) = observers m /\
    errorListeners (run evs m) = [JsErrorListener; ResourceErrorListener] /\
    rejectionListeners (run evs m) = 1%nat /\
    loadListeners (run evs m) = 1%nat /\
    reportUrl (run evs m) = reportUrl m /\
    exists new, log (run evs m) = log m ++ new.
Proof.
  intros po m evs Hm.
  destruct (run_started po evs m Hm) as (H1 & H2 & H3 & H4 & H5).
  assert (Hobs : observers m = registrations po) by apply Hm.
  split; [exact H1|]. split; [now rewrite H2, Hobs|].
  split; [exact H3|]. split; [exact H4|]. split; [exact H5|]. split.
  - apply (run_reportUrl evs (Monitoring po) m Hm).
  - apply (run_log_grows evs (Monitoring po) m Hm).
Qed.

(** After errors, deliveries, a load signal and two more calls of [init]. *)
Lemma registrations_stable_witness :
  started true Examples.monitor0 /\
  observers (run [(Examples.host0, Error Examples.brokenImage);
                  (Examples.hostNoLayoutShift, CallInit);
                  (Examples.host0, LayoutShiftDelivery Examples.shifts);
                  (Examples.host0, Load);
                  (Examples.host0, CallInit)]
                 Examples.monitor0) =
  observers Examples.monitor0.
Proof.
  assert (Hs : started true Examples.monitor0)
    by (unfold started; repeat split; reflexivity).
  split; [exact Hs|].
  apply (registrations_stable true Examples.monitor0 _ Hs).
Defined.

(** ** Rounding *)

Lemma Qfloor_unique (y : Q) (n : Z) :
  (inject_Z n <= y)%Q -> (y < inject_Z (n + 1))%Q -> Qfloor y = n.
Proof.
  intros Hlo Hhi.
  pose proof (Qfloor_le y) as Hfl. pose proof (Qlt_floor y) as Hlt.
  assert (H1 : (Qfloor y < n + 1)%Z).
  { rewrite Zlt_Qlt. eapply Qle_lt_trans; [exact Hfl | exact Hhi]. }
  assert (H2 : (n < Qfloor y + 1)%Z).
  { rewrite Zlt_Qlt. eapply Qle_lt_trans; [exact Hlo | exact Hlt]. }
  lia.
Qed.

(** X10.  The rounding applied to paint and largest-content times moves a
    time by at most half a millisecond, with ties going up; it leaves whole
    milliseconds as they are and keeps the order of two times. *)
Theorem round_within_half :
  (forall x : Qc,
     (this x - (1 # 2) < inject_Z (JS.round x))%Q /\
     (inject_Z (JS.round x) <= this x + (1 # 2))%Q) /\
  (forall n : Z, JS.round (Q2Qc (inject_Z n)) = n) /\
  (forall n : Z, JS.round (Q2Qc (inject_Z n + (1 # 2))) = n + 1) /\
  (forall x y : Qc, (x <= y)%Qc -> JS.round x <= JS.round y).
Proof.
  split; [|split; [|split]].
  - intros x. unfold JS.round.
    pose proof (Qfloor_le (this x + (1 # 2))) as Hle.
    pose proof (Qlt_floor (this x + (1 # 2))) as Hlt.
    rewrite inject_Z_plus in Hlt. change (inject_Z 1) with 1%Q in Hlt.
    split; [lra | exact Hle].
  - intros n. unfold JS.round. apply Qfloor_unique.
    + unfold Q2Qc; cbn [this]. rewrite Qred_correct. lra.
    + unfold Q2Qc; cbn [this]. rewrite Qred_correct, inject_Z_plus.
      change (inject_Z 1) with 1%Q. lra.
  - intros n. unfold JS.round. apply Qfloor_unique.
    + unfold Q2Qc; cbn [this]. rewrite Qred_correct, inject_Z_plus.
      change (inject_Z 1) with 1%Q. lra.
    + unfold Q2Qc; cbn [this]. rewrite Qred_correct, !inject_Z_plus.
      change (inject_Z 1) with 1%Q. lra.
  - intros x y Hxy. unfold JS.round. apply Qfloor_resp_le.
    unfold Qcle in Hxy. lra.
Qed.

(** 1234.5 is reported as 1235 and lies before 1236.2, reported as 1236. *)
Lemma round_within_half_witness :
  (Q2Qc (12345 # 10) <= Q2Qc (12362 # 10))%Qc /\
  JS.round (Q2Qc (12345 # 10)) <= JS.round (Q2Qc (12362 # 10)).
Proof.
  assert (H : (Q2Qc (12345 # 10) <= Q2Qc (12362 # 10))%Qc)
    by (vm_compute; discriminate).
  split; [exact H|].
  apply (proj2 (proj2 (proj2 round_within_half)) _ _ H).
Defined.

(** ** The reported layout-instability scores *)

Lemma clsReported_app (l1 l2 : list Effect) :
  clsReported (l1 ++ l2) = clsReported l1 ++ clsReported l2.
Proof.
  induction l1 as [|[|c u [d|d]] l1 IH]; simpl; auto.
  destruct (cls d); simpl; now rewrite IH.
Qed.

Lemma clsReported_timedReports {A} (h : Host) (url : string)
    (f : A -> BasicTiming -> ReportData) (xs : list A) :
  (forall x b, exists d, f x b = PerformanceReport d /\ cls d = None) ->
  clsReported (timedReports h url f xs) = [].
Proof.
  intros Hf. induction xs as [|x xs IH]; simpl; [reflexivity|].
  destruct (Hf x (basicTimingOf (timing h))) as (d & -> & ->). exact IH.
Qed.

Lemma effectsOf_clsReported (h : Host) (m : Monitor) (ev : Event) :
  isCallReport ev = false ->
  clsReported (effectsOf (Monitoring true) h m ev) =
  match ev with
  | LayoutShiftDelivery entries => [unflaggedSum (clsValue m) entries]
  | _ => []
  end.
Proof.
  intros Hev. destruct ev; try discriminate Hev; simpl effectsOf;
    try reflexivity.
  - unfold errorEffects. now destruct (isResourceElement (ev_target event)).
  - unfold paintEffects. rewrite clsReported_app.
    rewrite !clsReported_timedReports; [reflexivity| |];
      intros x b; eexists; split; reflexivity.
  - unfold lcpEffects. now destruct (rev entries).
Qed.

(** X11.  On a started monitor whose total is a non-negative number, as
    long as the page does not call [report] itself and the unflagged values
    delivered are not negative (and so not NaN), the cls values sent over an
    execution never go down, in the order of binary64 numbers: each is at
    least the one sent before it, the first is at least the total the
    monitor started from, and none exceeds the total the monitor ends
    with. *)
Theorem cls_reports_nondecreasing :
  forall (m : Monitor) (evs : list (Host * Event)),
    started true m ->
    (0 <=? clsValue m)%float = true ->
    forallb (fun x => negb (isCallReport (snd x))) evs = true ->
    (forall e, In e (shiftsDelivered evs) -> hadRecentInput e = false ->
               (0 <=? value e)%float = true) ->
    exists new,
      log (run evs m) = log m ++ new /\
      nondecreasingFrom (clsValue m) (clsReported new) /\
      Forall (fun c => (c <=? clsValue (run evs m))%float = true)
             (clsReported new).
Proof.
  intros m evs. revert m.
  induction evs as [|[h ev] rest IH]; intros m Hm Htotal Hevs Hpos.
  - exists []. simpl. rewrite app_nil_r. repeat split; constructor.
  - simpl in Hevs. apply andb_true_iff in Hevs as [Hev Hrest].
    apply negb_true_iff in Hev.
    assert (Hm' : started true (after (Monitoring true) h ev m))
      by now apply after_started.
    assert (Hpos' : forall e, In e (shiftsDelivered rest) ->
                              hadRecentInput e = false ->
                              (0 <=? value e)%float = true).
    { intros e He. apply Hpos. destruct ev; simpl; try exact He.
      apply in_or_app; now right. }
    destruct (totalAfter_grows [(h, ev)] (Monitoring true) (clsValue m) Htotal)
      as [Hstep Htotal'].
    { intros e He. apply Hpos. destruct ev; simpl in *; try contradiction.
      rewrite app_nil_r in He. apply in_or_app; now left. }
    simpl totalAfter in Hstep, Htotal'.
    rewrite <- after_clsValue with (h := h) in Hstep, Htotal'.
    destruct (IH _ Hm' Htotal' Hrest Hpos') as (new & Hlog & Hmono & Hbound).
    simpl run. rewrite (exec_step (Monitoring true) h ev m Hm).
    exists (effectsOf (Monitoring true) h m ev ++ new).
    rewrite Hlog, after_log, <- app_assoc. split; [reflexivity|].
    rewrite clsReported_app, (effectsOf_clsReported h m ev Hev).
    assert (Hfinal : (clsValue (after (Monitoring true) h ev m) <=?
                      clsValue (run rest (after (Monitoring true) h ev m)))%float
                     = true).
    { rewrite (run_clsValue rest (Monitoring true) _ Hm').
      now apply totalAfter_grows. }
    rewrite after_clsValue in Hmono, Hstep, Hfinal.
    destruct ev; try discriminate Hev; simpl totalOf in Hmono, Hstep, Hfinal;
      simpl app; try (split; [exact Hmono | exact Hbound]).
    split.
    + simpl. split; [exact Hstep | exact Hmono].
    + constructor; [exact Hfinal | exact Hbound].
Qed.

(** Three deliveries with other events in between. *)
Lemma cls_reports_nondecreasing_witness :
  started true Examples.monitor0 /\
  (0 <=? clsValue Examples.monitor0)%float = true /\
  exists new,
    log (run [(Examples.host0, LayoutShiftDelivery Examples.shifts);
              (Examples.host0, Load);
              (Examples.host0, LayoutShiftDelivery []);
              (Examples.host0, LargestContentfulPaintDelivery [Examples.lcp1]);
              (Examples.host0, LayoutShiftDelivery Examples.shifts)]
             Examples.monitor0) = log Examples.monitor0 ++ new /\
    nondecreasingFrom (clsValue Examples.monitor0) (clsReported new).
Proof.
  assert (Hs : started true Examples.monitor0)
    by (unfold started; repeat split; reflexivity).
  split; [exact Hs|]. split; [reflexivity|].
  destruct (cls_reports_nondecreasing Examples.monitor0
              [(Examples.host0, LayoutShiftDelivery Examples.shifts);
               (Examples.host0, Load);
               (Examples.host0, LayoutShiftDelivery []);
               (Examples.host0, LargestContentfulPaintDelivery [Examples.lcp1]);
               (Examples.host0, LayoutShiftDelivery Examples.shifts)] Hs)
    as (new & Hlog & Hmono & _).
  - reflexivity.
  - reflexivity.
  - intros e He _. simpl in He.
    repeat (destruct He as [<-|He]; [reflexivity|]).
    destruct He.
  - exists new. split; [exact Hlog | exact Hmono].
Defined.

(** X12.  How the platform cuts the layout-shift entries into batches does
    not matter for the total: one delivery of two batches joined leaves the
    same accumulator as two deliveries in a row, and reports the same final
    cls; only the number of reports differs, one against two. *)
Theorem cls_batches_compose :
  forall (m : Monitor) (h1 h2 h3 : Host) (a b : list LayoutShiftEntry),
    started true m ->
    clsValue (exec (step h1 (LayoutShiftDelivery (a ++ b))) m) =
    clsValue (run [(h2, LayoutShiftDelivery a); (h3, LayoutShiftDelivery b)] m) /\
    clsReported (log (exec (step h1 (LayoutShiftDelivery (a ++ b))) m)) =
      clsReported (log m) ++
      [clsValue (exec (step h1 (LayoutShiftDelivery (a ++ b))) m)] /\
    clsReported (log (run [(h2, LayoutShiftDelivery a);
                           (h3, LayoutShiftDelivery b)] m)) =
      clsReported (log m) ++
      [clsValue (exec (step h2 (LayoutShiftDelivery a)) m);
       clsValue (exec (step h1 (LayoutShiftDelivery (a ++ b))) m)].
Proof.
  intros m h1 h2 h3 a b Hm.
  assert (Hm' : started true (after (Monitoring true) h2 (LayoutShiftDelivery a) m))
    by now apply after_started.
  cbn [run].
  rewrite !(exec_step (Monitoring true) _ _ m Hm).
  rewrite (exec_step (Monitoring true) h3 _ _ Hm').
  rewrite !after_log, !after_clsValue, !clsReported_app. simpl totalOf.
  simpl clsReported.
  rewrite !unflaggedSum_app, <- app_assoc.
  split; [|split]; reflexivity.
Qed.

(** The example entries, cut after the first one. *)
Lemma cls_batches_compose_witness :
  started true Examples.monitor0 /\
  clsValue (exec (step Examples.host0 (LayoutShiftDelivery Examples.shifts))
                 Examples.monitor0) =
  clsValue (run [(Examples.host0,
                  LayoutShiftDelivery
                    [ {| value := 0.05%float; hadRecentInput := false |} ]);
                 (Examples.host0,
                  LayoutShiftDelivery
                    [ {| value := 0.10%float; hadRecentInput := true |};
                      {| value := 0.03%float; hadRecentInput := false |} ])]
                Examples.monitor0).
Proof.
  assert (Hs : started true Examples.monitor0)
    by (unfold started; repeat split; reflexivity).
  split; [exact Hs|].
  apply (cls_batches_compose Examples.monitor0 Examples.host0 Examples.host0
           Examples.host0
           [ {| value := 0.05%float; hadRecentInput := false |} ]
           [ {| value := 0.10%float; hadRecentInput := true |};
             {| value := 0.03%float; hadRecentInput := false |} ] Hs).
Defined.

(** The loop on pairs is the loop of the callback. *)
Lemma unflaggedSum_accumulateBinary64 (total : float)
    (entries : list LayoutShiftEntry) :
  unflaggedSum total entries =
  accumulateBinary64 total (map (fun e => (value e, hadRecentInput e)) entries).
Proof.
  revert total; induction entries as [|e rest IH]; intros total.
  - reflexivity.
  - rewrite unflaggedSum_cons. simpl.
    destruct (hadRecentInput e); simpl; apply IH.
Qed.

(** X13.  The accumulator loop on binary64 numbers: entries flagged as
    following input play no part in the result, an empty batch returns the
    total it was given, and a batch cut in two gives the same total as the
    whole, rounding included. *)
Theorem binary64_loop_batches :
  forall (total : float) (a b : list (float * bool)),
    accumulateBinary64 total a =
      accumulateBinary64 total (filter (fun entry => negb (snd entry)) a) /\
    accumulateBinary64 total [] = total /\
    accumulateBinary64 total (a ++ b) =
      accumulateBinary64 (accumulateBinary64 total a) b.
Proof.
  intros total a b. split; [|split].
  - revert total. induction a as [|[v flag] rest IH]; intros total; simpl.
    + reflexivity.
    + destruct flag; simpl; apply IH.
  - reflexivity.
  - unfold accumulateBinary64. apply fold_left_app.
Qed.

(** ** Reporting by hand *)

(** X14.  The public [report] can be called at any time, before [init] as
    well as after: it sends the envelope it is given, unchanged and exactly
    once, to the URL of the constructor, and has no other effect; in
    particular it does not start the monitor. *)
Theorem manual_report_any_time :
  forall (url : string) (evs : list (Host * Event)) (h : Host) (data : ReportData),
    log (exec (step h (CallReport data)) (run evs (constructor url))) =
      log (run evs (constructor url)) ++
      [Transmit (if hasSendBeacon h then Beacon else Xhr) url data] /\
    isMonitoring (exec (step h (CallReport data)) (run evs (constructor url))) =
      isMonitoring (run evs (constructor url)) /\
    clsValue (exec (step h (CallReport data)) (run evs (constructor url))) =
      clsValue (run evs (constructor url)) /\
    observers (exec (step h (CallReport data)) (run evs (constructor url))) =
      observers (run evs (constructor url)) /\
    errorListeners (exec (step h (CallReport data)) (run evs (constructor url))) =
      errorListeners (run evs (constructor url)) /\
    rejectionListeners (exec (step h (CallReport data)) (run evs (constructor url))) =
      rejectionListeners (run evs (constructor url)) /\
    loadListeners (exec (step h (CallReport data)) (run evs (constructor url))) =
      loadListeners (run evs (constructor url)).
Proof.
  intros url evs h data.
  pose proof (run_reportUrl evs Uninitialized (constructor url)
                (constructor_unstarted url)) as Hurl.
  simpl reportUrl in Hurl.
  unfold exec, step. rewrite report_eq. simpl snd.
  unfold extend, channel; simpl. rewrite Hurl. repeat split.
Qed.
